(** * GipumaKernel: the multi-view stereo kernel of stdlib/gipuma/gipuma_kernel.cpp

    A shallow embedding of the kernel class [GipumaKernel] (constructor,
    [validate], [new_frame_info], [execute], [set_device]) together with the
    properties its specification states about it.

    The kernel drives collaborators whose code lives elsewhere (the gipuma
    solver, OpenCV, CUDA, protobuf, the VideoKernel base class).  They are
    gathered in the interface [Collaborators]; the kernel's own control flow,
    integer arithmetic, assertions and field updates are modelled as written. *)

From Stdlib Require Import ZArith String Lia.
From Stdlib Require Import Floats.SpecFloat.
From stdpp Require Import base option list strings pretty.

Open Scope Z_scope.

(** ** Machine integers

    [i32] values are kept in [Z]; the result of an [i32] operation is wrapped
    to the signed 32-bit range, a conversion to [size_t] is taken modulo
    [2^64]. *)
Module MachInt.

Definition wrap_i32 (z : Z) : Z := (z + 2 ^ 31) mod 2 ^ 32 - 2 ^ 31.

Definition to_size_t (z : Z) : Z := z mod 2 ^ 64.

Definition mul_i32 (a b : Z) : Z := wrap_i32 (a * b).

(** [!x] on an integer operand: [1] when [x] is zero, [0] otherwise. *)
Definition lnot (x : Z) : Z := if x =? 0 then 1 else 0.

(** [sizeof(float4)] and [sizeof(float)] *)
Definition sizeof_float4 : Z := 16.

End MachInt.

(** ** Single-precision floats

    [float] is IEEE-754 binary32: 24 bits of precision, exponents up to 128,
    rounding to nearest even, as specified by [SpecFloat]. *)
Definition float : Type := spec_float.

Module F32.

Definition prec : Z := 24.
Definition emax : Z := 128.

Definition of_Z (z : Z) : float := binary_normalize prec emax z 0 false.
Definition mul : float -> float -> float := SFmul prec emax.
Definition div : float -> float -> float := SFdiv prec emax.
Definition leb : float -> float -> bool := SFleb.
Definition eqb : float -> float -> bool := SFeqb.

End F32.

(** ** Data model *)

(** [Camera] (gipuma): the fields the kernel reads or writes. [P] is the 3x4
    projection matrix, row by row. *)
Module Camera.
Record t : Type := mk {
  P : list (list float);
  baseline : float;
  depthMin : float;
  depthMax : float
}.
Definition set_P (v : list (list float)) (c : t) : t :=
  mk v (baseline c) (depthMin c) (depthMax c).
Definition set_depthMin (v : float) (c : t) : t :=
  mk (P c) (baseline c) v (depthMax c).
Definition set_depthMax (v : float) (c : t) : t :=
  mk (P c) (baseline c) (depthMin c) v.
End Camera.

(** [CameraParameters] (gipuma): the host-side rig. *)
Module CameraParameters.
Record t : Type := mk {
  cameras : list Camera.t;
  f : float;
  viewSelectionSubset : list Z
}.
Definition set_cameras (v : list Camera.t) (p : t) : t :=
  mk v (f p) (viewSelectionSubset p).
Definition set_viewSelectionSubset (v : list Z) (p : t) : t :=
  mk (cameras p) (f p) v.
End CameraParameters.

(** [Camera_cu] and [CameraParameters_cu] (gipuma): the rig as the solver sees
    it; [cameras] and [viewSelectionSubset] are fixed-capacity arrays. *)
Module Camera_cu.
Record t : Type := mk {
  depthMin : float;
  depthMax : float
}.
Definition set_depthMin (v : float) (c : t) : t := mk v (depthMax c).
Definition set_depthMax (v : float) (c : t) : t := mk (depthMin c) v.
End Camera_cu.

Module CameraParameters_cu.
Record t : Type := mk {
  cameras : list Camera_cu.t;
  viewSelectionSubset : list Z;
  viewSelectionSubsetNumber : Z;
  cols : Z;
  rows : Z
}.
Definition set_cameras (v : list Camera_cu.t) (p : t) : t :=
  mk v (viewSelectionSubset p) (viewSelectionSubsetNumber p) (cols p) (rows p).
Definition set_viewSelectionSubset (v : list Z) (p : t) : t :=
  mk (cameras p) v (viewSelectionSubsetNumber p) (cols p) (rows p).
Definition set_viewSelectionSubsetNumber (v : Z) (p : t) : t :=
  mk (cameras p) (viewSelectionSubset p) v (cols p) (rows p).
Definition set_cols (v : Z) (p : t) : t :=
  mk (cameras p) (viewSelectionSubset p) (viewSelectionSubsetNumber p) v (rows p).
Definition set_rows (v : Z) (p : t) : t :=
  mk (cameras p) (viewSelectionSubset p) (viewSelectionSubsetNumber p) (cols p) v.
End CameraParameters_cu.

(** [AlgorithmParameters] (gipuma): the fields the kernel sets. *)
Module AlgorithmParameters.
Record t : Type := mk {
  num_img_processed : Z;
  min_angle : float;
  max_angle : float;
  min_disparity : float;
  max_disparity : float;
  depthMin : float;
  depthMax : float;
  iterations : Z;
  box_hsize : Z;
  box_vsize : Z;
  cols : Z;
  rows : Z
}.
Definition set_num_img_processed (v : Z) (p : t) : t :=
  mk v (min_angle p) (max_angle p) (min_disparity p) (max_disparity p)
     (depthMin p) (depthMax p) (iterations p) (box_hsize p) (box_vsize p)
     (cols p) (rows p).
Definition set_min_angle (v : float) (p : t) : t :=
  mk (num_img_processed p) v (max_angle p) (min_disparity p) (max_disparity p)
     (depthMin p) (depthMax p) (iterations p) (box_hsize p) (box_vsize p)
     (cols p) (rows p).
Definition set_max_angle (v : float) (p : t) : t :=
  mk (num_img_processed p) (min_angle p) v (min_disparity p) (max_disparity p)
     (depthMin p) (depthMax p) (iterations p) (box_hsize p) (box_vsize p)
     (cols p) (rows p).
Definition set_min_disparity (v : float) (p : t) : t :=
  mk (num_img_processed p) (min_angle p) (max_angle p) v (max_disparity p)
     (depthMin p) (depthMax p) (iterations p) (box_hsize p) (box_vsize p)
     (cols p) (rows p).
Definition set_max_disparity (v : float) (p : t) : t :=
  mk (num_img_processed p) (min_angle p) (max_angle p) (min_disparity p) v
     (depthMin p) (depthMax p) (iterations p) (box_hsize p) (box_vsize p)
     (cols p) (rows p).
Definition set_depthMin (v : float) (p : t) : t :=
  mk (num_img_processed p) (min_angle p) (max_angle p) (min_disparity p)
     (max_disparity p) v (depthMax p) (iterations p) (box_hsize p)
     (box_vsize p) (cols p) (rows p).
Definition set_depthMax (v : float) (p : t) : t :=
  mk (num_img_processed p) (min_angle p) (max_angle p) (min_disparity p)
     (max_disparity p) (depthMin p) v (iterations p) (box_hsize p)
     (box_vsize p) (cols p) (rows p).
Definition set_iterations (v : Z) (p : t) : t :=
  mk (num_img_processed p) (min_angle p) (max_angle p) (min_disparity p)
     (max_disparity p) (depthMin p) (depthMax p) v (box_hsize p)
     (box_vsize p) (cols p) (rows p).
Definition set_box_hsize (v : Z) (p : t) : t :=
  mk (num_img_processed p) (min_angle p) (max_angle p) (min_disparity p)
     (max_disparity p) (depthMin p) (depthMax p) (iterations p) v
     (box_vsize p) (cols p) (rows p).
Definition set_box_vsize (v : Z) (p : t) : t :=
  mk (num_img_processed p) (min_angle p) (max_angle p) (min_disparity p)
     (max_disparity p) (depthMin p) (depthMax p) (iterations p) (box_hsize p)
     v (cols p) (rows p).
Definition set_cols (v : Z) (p : t) : t :=
  mk (num_img_processed p) (min_angle p) (max_angle p) (min_disparity p)
     (max_disparity p) (depthMin p) (depthMax p) (iterations p) (box_hsize p)
     (box_vsize p) v (rows p).
Definition set_rows (v : Z) (p : t) : t :=
  mk (num_img_processed p) (min_angle p) (max_angle p) (min_disparity p)
     (max_disparity p) (depthMin p) (depthMax p) (iterations p) (box_hsize p)
     (box_vsize p) (cols p) v.
End AlgorithmParameters.

(** [proto::GipumaArgs]: the parsed configuration. Each camera is its
    flattened projection matrix [p]. *)
Module GipumaArgs.
Record t : Type := mk {
  cameras : list (list float);
  min_disparity : float;
  max_disparity : float;
  min_depth : float;
  max_depth : float;
  iterations : Z;
  kernel_width : Z;
  kernel_height : Z
}.
(** [cameras_size()] returns an [int]. *)
Definition cameras_size (a : t) : Z := MachInt.wrap_i32 (Z.of_nat (length (cameras a))).
End GipumaArgs.

(** [proto::Result] *)
Module Result.
Record t : Type := mk {
  success : bool;
  msg : string
}.
End Result.

(** [FrameInfo]: the frame geometry kept by the VideoKernel base class. *)
Module FrameInfo.
Record t : Type := mk {
  width : Z;
  height : Z
}.
End FrameInfo.

Record DeviceHandle : Type := { id : Z }.

(** Types declared by the collaborators' headers, left abstract:
    the contents of a raw memory block ([u8*], [float4*]), an OpenCV matrix,
    and the texture handles a [GlobalState] holds ([imgs], [cuArray]). *)
Class MemoryModel : Type := {
  Buffer : Type;
  Image : Type;
  Textures : Type
}.

(** A block of memory obtained from the allocator: the device it lives on,
    its size in bytes ([size_t]) and the number of rows that share it. *)
Module Block.
Record t : Type := mk {
  device : DeviceHandle;
  bytes : Z;
  refs : Z
}.
End Block.

(** A [u8*]: the block it points into, its offset in bytes from the start of
    that block, and the contents stored through it.  An offset outside
    [[0, bytes)] points outside the block; two pointers into the same block
    whose ranges overlap share memory. *)
Module Pointer.
Record t `{MemoryModel} : Type := mk {
  block : Block.t;
  offset : Z;
  contents : Buffer
}.
End Pointer.

(** [Row] of a column: a buffer and its size in bytes ([size_t]). *)
Module Row.
Record t `{MemoryModel} : Type := mk {
  buffer : Pointer.t;
  size : Z
}.
End Row.

(** [RowList]: the rows of one column of a batch. *)
Module RowList.
Record t `{MemoryModel} : Type := mk {
  rows : list Row.t
}.
Definition push_back `{MemoryModel} (r : Row.t) (c : t) : t := mk _ (rows c ++ [r]).
End RowList.

(** [LineState] (gipuma): the per-pixel results buffer.  [n], [s] and [l] are
    its public fields; [norm4] is the result memory the solver fills.

    Modelled from the spec: [LineState::resize] (gipuma/linestate.h is not
    part of the sources) resizes the results buffer to the requested number of
    elements; [elements] records that number, and [norm4] becomes the memory
    the resize leaves (see [resized] among the collaborators). *)
Module LineState.
Record t `{MemoryModel} : Type := mk {
  n : Z;
  s : Z;
  l : Z;
  elements : Z;
  norm4 : Buffer
}.
Definition set_n `{MemoryModel} (v : Z) (x : t) : t :=
  mk _ v (s x) (l x) (elements x) (norm4 x).
Definition set_s `{MemoryModel} (v : Z) (x : t) : t :=
  mk _ (n x) v (l x) (elements x) (norm4 x).
Definition set_l `{MemoryModel} (v : Z) (x : t) : t :=
  mk _ (n x) (s x) v (elements x) (norm4 x).
Definition resize `{MemoryModel} (v : Z) (memory : Buffer) (x : t) : t :=
  mk _ (n x) (s x) (l x) v memory.
End LineState.

(** [GlobalState] (gipuma).  [params] is a pointer: the kernel makes it point
    to its own [algo_params_] object, so the model keeps only whether it has
    been set and reads the parameters from the kernel. *)
Module GlobalState.
Record t `{MemoryModel} : Type := mk {
  cameras : CameraParameters_cu.t;
  params_set : bool;
  lines : LineState.t;
  textures : Textures
}.
Definition set_cameras `{MemoryModel} (v : CameraParameters_cu.t) (g : t) : t :=
  mk _ v (params_set g) (lines g) (textures g).
Definition set_params_set `{MemoryModel} (v : bool) (g : t) : t :=
  mk _ (cameras g) v (lines g) (textures g).
Definition set_lines `{MemoryModel} (v : LineState.t) (g : t) : t :=
  mk _ (cameras g) (params_set g) v (textures g).
Definition set_textures `{MemoryModel} (v : Textures) (g : t) : t :=
  mk _ (cameras g) (params_set g) (lines g) v.
End GlobalState.

(** [Kernel::Config]: the assigned devices, the serialized arguments and the
    declared input columns. *)
Module Config.
Record t : Type := mk {
  devices : list DeviceHandle;
  args : list Byte.byte;
  input_columns : list string
}.
End Config.

(** Calls the kernel makes on the GPU and on its collaborators, in program
    order: the record a mock resource tracker would keep. *)
Inductive gpu_call : Type :=
| SetDevice (device : Z)
| BuildRig
| SelectViews (width height : Z)
| ResizeLines (elements : Z)
| BindTextures (images : nat)
| RunSolver
| CopyResult (bytes : Z)
| ReleaseTextures (images : Z).

(** The kernel object: the private members of [GipumaKernel], the
    [frame_info_] member it inherits from [VideoKernel], and the call record. *)
Module Kernel.
Record t `{MemoryModel} : Type := mk {
  device_ : DeviceHandle;
  valid_ : Result.t;
  args_ : GipumaArgs.t;
  camera_params_ : CameraParameters.t;
  algo_params_ : AlgorithmParameters.t;
  state_ : GlobalState.t;
  num_cameras_ : Z;
  frame_info_ : FrameInfo.t;
  calls : list gpu_call
}.
Definition set_valid_ `{MemoryModel} (v : Result.t) (k : t) : t :=
  mk _ (device_ k) v (args_ k) (camera_params_ k) (algo_params_ k) (state_ k)
     (num_cameras_ k) (frame_info_ k) (calls k).
Definition set_args_ `{MemoryModel} (v : GipumaArgs.t) (k : t) : t :=
  mk _ (device_ k) (valid_ k) v (camera_params_ k) (algo_params_ k) (state_ k)
     (num_cameras_ k) (frame_info_ k) (calls k).
Definition set_camera_params_ `{MemoryModel} (v : CameraParameters.t) (k : t) : t :=
  mk _ (device_ k) (valid_ k) (args_ k) v (algo_params_ k) (state_ k)
     (num_cameras_ k) (frame_info_ k) (calls k).
Definition set_algo_params_ `{MemoryModel} (v : AlgorithmParameters.t) (k : t) : t :=
  mk _ (device_ k) (valid_ k) (args_ k) (camera_params_ k) v (state_ k)
     (num_cameras_ k) (frame_info_ k) (calls k).
Definition set_state_ `{MemoryModel} (v : GlobalState.t) (k : t) : t :=
  mk _ (device_ k) (valid_ k) (args_ k) (camera_params_ k) (algo_params_ k) v
     (num_cameras_ k) (frame_info_ k) (calls k).
Definition set_num_cameras_ `{MemoryModel} (v : Z) (k : t) : t :=
  mk _ (device_ k) (valid_ k) (args_ k) (camera_params_ k) (algo_params_ k)
     (state_ k) v (frame_info_ k) (calls k).
Definition set_frame_info_ `{MemoryModel} (v : FrameInfo.t) (k : t) : t :=
  mk _ (device_ k) (valid_ k) (args_ k) (camera_params_ k) (algo_params_ k)
     (state_ k) (num_cameras_ k) v (calls k).
Definition log `{MemoryModel} (c : gpu_call) (k : t) : t :=
  mk _ (device_ k) (valid_ k) (args_ k) (camera_params_ k) (algo_params_ k)
     (state_ k) (num_cameras_ k) (frame_info_ k) (calls k ++ [c]).
End Kernel.

(** ** Collaborators

    Functions and constructors of other components that the kernel calls.
    Nothing is assumed about them beyond their signatures. *)
Class Collaborators `{MemoryModel} : Type := {
  (** [proto::GipumaArgs::ParseFromArray] on [config.args] *)
  ParseFromArray : list Byte.byte -> option GipumaArgs.t;
  (** default-constructed [Camera], [CameraParameters],
      [AlgorithmParameters], [GlobalState] and [cv::Mat] *)
  Camera_new : Camera.t;
  CameraParameters_new : CameraParameters.t;
  AlgorithmParameters_new : AlgorithmParameters.t;
  GlobalState_new : GlobalState.t;
  Mat_new : Image;
  (** [getCameraParameters(cpc, params)]: fills [cpc] and returns the rig *)
  getCameraParameters :
    CameraParameters_cu.t -> CameraParameters.t ->
    CameraParameters_cu.t * CameraParameters.t;
  (** angle, in degrees, between the viewing rays of a reference camera and of
      another camera (given by their projection matrices) at the
      representative point of a [width] x [height] frame *)
  viewAngle : list (list float) -> list (list float) -> Z -> Z -> float;
  (** the frame geometry carried by the rows of a frame-info column *)
  frame_info_of : RowList.t -> FrameInfo.t;
  (** [cvc::GpuMat(height, width, CV_8UC3, buffer)], [download],
      [cv::cvtColor(.., CV_BGR2GRAY)] and [convertTo(.., CV_32FC1)] *)
  bgr_to_gray32f : Z -> Z -> Buffer -> Image;
  addImageToTextureFloatGray : list Image -> Textures -> Textures;
  (** [runcuda(gs)]: the solver; it reaches the algorithm parameters through
      [gs.params] *)
  runcuda :
    GlobalState.t -> AlgorithmParameters.t ->
    GlobalState.t * AlgorithmParameters.t;
  (** [cudaMemcpy(dst, src, count, cudaMemcpyDefault)]: what the [count]
      bytes at [dst] hold afterwards *)
  cudaMemcpy : Buffer -> Z -> Buffer;
  delTexture : Z -> Textures -> Textures;
  (** the result memory of a [LineState] after [resize(n)], given the memory
      it had before *)
  resized : Buffer -> Z -> Buffer
}.

(** Modelled from the spec: [disparityDepthConversion]
    (gipuma/cameraGeometryUtils.h is not part of the sources).
    "disparity = focalLength * baseline / depth", in single precision. *)
Definition disparityDepthConversion (f baseline d : float) : float :=
  F32.div (F32.mul f baseline) d.

(** ** Outcomes of a member function

    A call either returns ([Done]), stops the process on a failed [assert]
    ([Abort], with the state reached), or leaves defined behaviour
    (an access outside a vector or array). *)
Inductive outcome (S A : Type) : Type :=
| Done (a : A) (s : S)
| Abort (s : S)
| Undefined.
Arguments Done {S A} a s.
Arguments Abort {S A} s.
Arguments Undefined {S A}.

Definition exit_state {S A : Type} (o : outcome S A) : option S :=
  match o with
  | Done _ s => Some s
  | Abort s => Some s
  | Undefined => None
  end.

Definition M `{MemoryModel} (A : Type) : Type := Kernel.t -> outcome Kernel.t A.

#[export] Instance M_ret `{MemoryModel} : MRet M := fun A a k => Done a k.

#[export] Instance M_bind `{MemoryModel} : MBind M := fun A B f m k =>
  match m k with
  | Done a k' => f a k'
  | Abort k' => Abort k'
  | Undefined => Undefined
  end.

Definition gets `{MemoryModel} {A : Type} (proj : Kernel.t -> A) : M A :=
  fun k => Done (proj k) k.

Definition modify `{MemoryModel} (upd : Kernel.t -> Kernel.t) : M unit :=
  fun k => Done tt (upd k).

(** [assert(cond)] *)
Definition assert `{MemoryModel} (cond : bool) : M unit :=
  fun k => if cond then Done tt k else Abort k.

(** [v[i]] on a vector or array: defined only inside its bounds. *)
Definition index `{MemoryModel} {A : Type} (v : list A) (i : Z) : M A :=
  fun k =>
    if i <? 0 then Undefined
    else match v !! Z.to_nat i with
         | Some a => Done a k
         | None => Undefined
         end.

(** [for (i32 i = from; ...; ++i) body], for [count] iterations, threading the
    locals [a] the body updates. *)
Fixpoint for_loop `{MemoryModel} {A : Type} (count : nat) (i : Z)
    (body : Z -> A -> M A) (a : A) : M A :=
  match count with
  | O => mret a
  | S count' => a' ← body i a; for_loop count' (i + 1) body a'
  end.

(** [for (i32 i = 0; i < bound; ++i) body] *)
Definition for_i32 `{MemoryModel} {A : Type} (bound : Z)
    (body : Z -> A -> M A) (a : A) : M A :=
  for_loop (Z.to_nat bound) 0 body a.

(** ** The kernel's member functions *)
Section GipumaKernel.
Context `{ext : Collaborators}.

(** [set_device()]: [cudaSetDevice(device_.id); cvc::setDevice(device_.id);] *)
Definition set_device : M unit :=
  fun k => Done tt (Kernel.log (SetDevice (id (Kernel.device_ k))) k).

(** Modelled from the spec: the [RESULT_ERROR] macro (scanner/util/common.h is
    not part of the sources) marks the result as failed and stores the
    formatted message in it; it is not a fatal fault. *)
Definition RESULT_ERROR (message : string) : M unit :=
  modify (Kernel.set_valid_ (Result.mk false message)).

Definition modify_algo_params (upd : AlgorithmParameters.t -> AlgorithmParameters.t)
    : M unit :=
  modify (fun k => Kernel.set_algo_params_ (upd (Kernel.algo_params_ k)) k).

Definition modify_camera_params (upd : CameraParameters.t -> CameraParameters.t)
    : M unit :=
  modify (fun k => Kernel.set_camera_params_ (upd (Kernel.camera_params_ k)) k).

Definition modify_state (upd : GlobalState.t -> GlobalState.t) : M unit :=
  modify (fun k => Kernel.set_state_ (upd (Kernel.state_ k)) k).

Definition modify_state_cameras
    (upd : CameraParameters_cu.t -> CameraParameters_cu.t) : M unit :=
  modify_state (fun g => GlobalState.set_cameras (upd (GlobalState.cameras g)) g).

Definition modify_lines (upd : LineState.t -> LineState.t) : M unit :=
  modify_state (fun g => GlobalState.set_lines (upd (GlobalState.lines g)) g).

(** The object before the constructor body runs:
    [VideoKernel(config), device_(config.devices[0])], the other members
    default-constructed ([num_cameras_] is left unset by the source; the model
    holds 0 there until it is assigned). *)
Definition members (d : DeviceHandle) : Kernel.t :=
  Kernel.mk _ d
    (Result.mk false "")
    (GipumaArgs.mk [] (S754_zero false) (S754_zero false) (S754_zero false)
       (S754_zero false) 0 0 0)
    CameraParameters_new
    AlgorithmParameters_new
    GlobalState_new
    0
    (FrameInfo.mk 0 0)
    [].

(** The two nested loops that read a camera's projection matrix:
    [c.P(i, j) = cam.p(i * 4 + j)] for [i < 3], [j < 4]. *)
Definition read_P (p : list float) : M (list (list float)) :=
  for_i32 3 (fun i rows =>
    row ← for_i32 4 (fun j row =>
             let idx := MachInt.wrap_i32 (i * 4 + j) in
             x ← index p idx;
             mret (row ++ [x])) [];
    mret (rows ++ [row])) [].

(** [for (auto& cam : args_.cameras()) { camera_params_.cameras.emplace_back(); ... }] *)
Fixpoint read_cameras (cams : list (list float)) : M unit :=
  match cams with
  | [] => mret tt
  | cam :: rest =>
      P ← read_P cam;
      modify_camera_params (fun cp =>
        CameraParameters.set_cameras
          (CameraParameters.cameras cp ++ [Camera.set_P P Camera_new]) cp);;
      read_cameras rest
  end.

(** The check of line 43, as written:
    [!args_.cameras_size() * 2 == config.input_columns.size()].
    [!] applies to the camera count alone; the product is an [int] and is
    converted to [size_t] for the comparison. *)
Definition columns_check (cameras_size : Z) (input_columns : nat) : bool :=
  MachInt.to_size_t (MachInt.lnot cameras_size * 2) =? Z.of_nat input_columns.

Definition mismatch_message (cameras_size : Z) (input_columns : nat) : string :=
  "GipumaKernel args specified " +:+ pretty cameras_size +:+ " cameras but " +:+
  "received " +:+ pretty (Z.of_nat input_columns) +:+ " columns as input".

(** The constructor body. *)
Definition GipumaKernel_body (config : Config.t) : M unit :=
  set_device;;
  modify (Kernel.set_state_ GlobalState_new);;
  modify (Kernel.set_algo_params_ AlgorithmParameters_new);;
  modify (fun k => Kernel.set_valid_ (Result.mk true (Result.msg (Kernel.valid_ k))) k);;
  match ParseFromArray (Config.args config) with
  | None => RESULT_ERROR "GipumaKernel could not parse protobuf args"
  | Some parsed =>
      modify (Kernel.set_args_ parsed);;
      args ← gets Kernel.args_;
      modify (Kernel.set_num_cameras_ (GipumaArgs.cameras_size args));;
      modify_algo_params (AlgorithmParameters.set_num_img_processed (GipumaArgs.cameras_size args));;
      modify_algo_params (AlgorithmParameters.set_min_angle (F32.of_Z 1));;
      modify_algo_params (AlgorithmParameters.set_max_angle (F32.of_Z 90));;
      modify_algo_params (AlgorithmParameters.set_min_disparity (GipumaArgs.min_disparity args));;
      modify_algo_params (AlgorithmParameters.set_max_disparity (GipumaArgs.max_disparity args));;
      modify_algo_params (AlgorithmParameters.set_depthMin (GipumaArgs.min_depth args));;
      modify_algo_params (AlgorithmParameters.set_depthMax (GipumaArgs.max_depth args));;
      modify_algo_params (AlgorithmParameters.set_iterations (GipumaArgs.iterations args));;
      modify_algo_params (AlgorithmParameters.set_box_hsize (GipumaArgs.kernel_width args));;
      modify_algo_params (AlgorithmParameters.set_box_vsize (GipumaArgs.kernel_height args));;
      if columns_check (GipumaArgs.cameras_size args)
           (length (Config.input_columns config))
      then
        RESULT_ERROR (mismatch_message (GipumaArgs.cameras_size args)
                        (length (Config.input_columns config)))
      else
        read_cameras (GipumaArgs.cameras args);;
        k ← gets (fun k => k);
        let '(cu, cp) :=
          getCameraParameters (GlobalState.cameras (Kernel.state_ k))
            (Kernel.camera_params_ k) in
        modify (Kernel.log BuildRig);;
        modify_state_cameras (fun _ => cu);;
        modify_camera_params (fun _ => cp)
  end.

(** [GipumaKernel::GipumaKernel(config)] *)
Definition GipumaKernel_new (config : Config.t) : outcome Kernel.t unit :=
  match Config.devices config with
  | [] => Undefined
  | d :: _ => GipumaKernel_body config (members d)
  end.

(** [GipumaKernel::validate(result)]: what [result] holds afterwards. *)
Definition validate : M Result.t :=
  k ← gets (fun k => k);
  mret (Result.mk (Result.success (Kernel.valid_ k)) (Result.msg (Kernel.valid_ k))).

(** *** The frame-geometry planner *)

(** The cameras other than the reference camera (index 0), with their
    indices. *)
Definition auxiliary_views (cams : list Camera.t) : list (Z * Camera.t) :=
  match cams with
  | [] => []
  | _ :: others => imap (fun i c => (Z.of_nat (S i), c)) others
  end.

(** Whether the viewing ray of camera [c] makes, with the one of the reference
    camera, an angle within [[min_angle, max_angle]]. *)
Definition within_angle_bounds (ap : AlgorithmParameters.t) (ref : Camera.t)
    (width height : Z) (c : Camera.t) : bool :=
  let angle := viewAngle (Camera.P ref) (Camera.P c) width height in
  F32.leb (AlgorithmParameters.min_angle ap) angle
  && F32.leb angle (AlgorithmParameters.max_angle ap).

(** Modelled from the spec: [selectViews] (gipuma/cameraGeometryUtils.h is not
    part of the sources).  "compute viewSelectionSubset: the set of other
    cameras whose viewing-ray angle to the reference camera, at a
    representative scene point, lies within [minAngle, maxAngle]"; the
    reference camera is the one at index 0. *)
Definition selectViews (cp : CameraParameters.t) (width height : Z)
    (ap : AlgorithmParameters.t) : CameraParameters.t :=
  let selected :=
    match CameraParameters.cameras cp with
    | [] => []
    | ref :: _ =>
        filter (fun ic => within_angle_bounds ap ref width height ic.2)
          (auxiliary_views (CameraParameters.cameras cp))
    end in
  CameraParameters.set_viewSelectionSubset (selected.*1) cp.

(** [camera_params_.cameras[i].field = v] *)
Definition assign_camera (i : Z) (upd : Camera.t -> Camera.t) : M unit :=
  cp ← gets Kernel.camera_params_;
  c ← index (CameraParameters.cameras cp) i;
  modify_camera_params
    (CameraParameters.set_cameras
       (<[Z.to_nat i := upd c]> (CameraParameters.cameras cp))).

(** [state_->cameras->cameras[i].field = v] *)
Definition assign_camera_cu (i : Z) (upd : Camera_cu.t -> Camera_cu.t) : M unit :=
  st ← gets Kernel.state_;
  c ← index (CameraParameters_cu.cameras (GlobalState.cameras st)) i;
  modify_state_cameras
    (CameraParameters_cu.set_cameras
       (<[Z.to_nat i := upd c]> (CameraParameters_cu.cameras (GlobalState.cameras st)))).

(** The body of the per-camera loop (lines 82-93). *)
Definition plan_camera (i : Z) : M unit :=
  ap ← gets Kernel.algo_params_;
  assign_camera i (Camera.set_depthMin (AlgorithmParameters.depthMin ap));;
  assign_camera i (Camera.set_depthMax (AlgorithmParameters.depthMax ap));;
  assign_camera_cu i (Camera_cu.set_depthMin (AlgorithmParameters.depthMin ap));;
  assign_camera_cu i (Camera_cu.set_depthMax (AlgorithmParameters.depthMax ap));;
  cp ← gets Kernel.camera_params_;
  c ← index (CameraParameters.cameras cp) i;
  modify_algo_params
    (AlgorithmParameters.set_min_disparity
       (disparityDepthConversion (CameraParameters.f cp) (Camera.baseline c)
          (Camera.depthMax c)));;
  cp ← gets Kernel.camera_params_;
  c ← index (CameraParameters.cameras cp) i;
  modify_algo_params
    (AlgorithmParameters.set_max_disparity
       (disparityDepthConversion (CameraParameters.f cp) (Camera.baseline c)
          (Camera.depthMin c))).

(** The body of the copy loop (lines 97-98). *)
Definition copy_view (i : Z) : M unit :=
  cp ← gets Kernel.camera_params_;
  v ← index (CameraParameters.viewSelectionSubset cp) i;
  st ← gets Kernel.state_;
  _ ← index (CameraParameters_cu.viewSelectionSubset (GlobalState.cameras st)) i;
  modify_state_cameras
    (CameraParameters_cu.set_viewSelectionSubset
       (<[Z.to_nat i := v]>
          (CameraParameters_cu.viewSelectionSubset (GlobalState.cameras st)))).

(** [GipumaKernel::new_frame_info()] *)
Definition new_frame_info : M unit :=
  frame_width ← gets (fun k => FrameInfo.width (Kernel.frame_info_ k));
  frame_height ← gets (fun k => FrameInfo.height (Kernel.frame_info_ k));
  set_device;;
  modify (Kernel.log (SelectViews frame_width frame_height));;
  modify (fun k =>
    Kernel.set_camera_params_
      (selectViews (Kernel.camera_params_ k) frame_width frame_height
         (Kernel.algo_params_ k)) k);;
  selected_views ← gets (fun k =>
    MachInt.wrap_i32
      (Z.of_nat (length (CameraParameters.viewSelectionSubset (Kernel.camera_params_ k)))));
  assert (0 <? selected_views);;
  num_cameras ← gets Kernel.num_cameras_;
  for_i32 num_cameras (fun i _ => plan_camera i) tt;;
  for_i32 selected_views (fun i _ => copy_view i) tt;;
  modify_state (GlobalState.set_params_set true);;
  modify_state_cameras (CameraParameters_cu.set_viewSelectionSubsetNumber selected_views);;
  modify_state_cameras (CameraParameters_cu.set_cols frame_width);;
  modify_state_cameras (CameraParameters_cu.set_rows frame_height);;
  modify_algo_params (AlgorithmParameters.set_cols frame_width);;
  modify_algo_params (AlgorithmParameters.set_rows frame_height);;
  modify_lines (LineState.set_n (MachInt.mul_i32 frame_height frame_width));;
  modify (Kernel.log (ResizeLines (MachInt.mul_i32 frame_height frame_width)));;
  modify_lines (fun lines =>
    LineState.resize (MachInt.mul_i32 frame_height frame_width)
      (resized (LineState.norm4 lines) (MachInt.mul_i32 frame_height frame_width))
      lines);;
  modify_lines (LineState.set_s frame_width);;
  modify_lines (LineState.set_l frame_width).

(** Modelled from the spec: [VideoKernel::check_frame_info]
    (scanner/api/kernel.h is not part of the sources).  The planner hook is
    "invoked whenever the frame geometry (width/height) becomes known or
    changes": "on first frame or whenever resolution changes from the
    previously planned one"; frames of the planned size skip it. *)
Definition check_frame_info (frame_info : RowList.t) : M unit :=
  planned ← gets Kernel.frame_info_;
  let observed := frame_info_of frame_info in
  if (FrameInfo.width observed =? FrameInfo.width planned)
     && (FrameInfo.height observed =? FrameInfo.height planned)
  then mret tt
  else modify (Kernel.set_frame_info_ observed);; new_frame_info.

(** *** The per-frame executor *)

(** [width * height * 3], an [i32] product, converted to [size_t] for the
    comparison with a row's size. *)
Definition expected_input_size (width height : Z) : Z :=
  MachInt.to_size_t (MachInt.mul_i32 (MachInt.mul_i32 width height) 3).

(** [i32 output_size = width * height * sizeof(float4)]: the [i32] product is
    converted to [size_t], multiplied, and converted back to [i32]. *)
Definition output_size_of (width height : Z) : Z :=
  MachInt.wrap_i32
    (MachInt.to_size_t
       (MachInt.to_size_t (MachInt.mul_i32 width height) * MachInt.sizeof_float4)).

(** The body of the per-camera loop of [execute] (lines 134-143). *)
Definition preprocess_camera (input_columns : list RowList.t)
    (width height i c : Z) (grayscale_images : list Image) : M (list Image) :=
  frame_column ← index input_columns (MachInt.mul_i32 c 2);
  row ← index (RowList.rows frame_column) i;
  assert (Row.size row =? expected_input_size width height);;
  fi ← gets Kernel.frame_info_;
  mret (<[Z.to_nat c :=
            bgr_to_gray32f (FrameInfo.height fi) (FrameInfo.width fi)
              (Pointer.contents (Row.buffer row))]>
          grayscale_images).

(** [addImageToTextureFloatGray(grayscale_images, state_->imgs, state_->cuArray)] *)
Definition bind_textures (grayscale_images : list Image) : M unit :=
  modify_state (fun g =>
    GlobalState.set_textures
      (addImageToTextureFloatGray grayscale_images (GlobalState.textures g)) g);;
  modify (Kernel.log (BindTextures (length grayscale_images))).

(** The call of [runcuda] on the object [state_] owns. *)
Definition run_solver : M unit :=
  k ← gets (fun k => k);
  let '(g, ap) := runcuda (Kernel.state_ k) (Kernel.algo_params_ k) in
  modify (Kernel.set_state_ g);;
  modify (Kernel.set_algo_params_ ap);;
  modify (Kernel.log RunSolver).

(** Modelled from the spec: [new_block_buffer(device, size, refs)]
    (scanner/util/memory.h is not part of the sources) provides "the batch's
    output buffer": a block of [size] bytes ([size_t]) on the device, shared
    by [refs] rows. *)
Definition new_block_buffer (device : DeviceHandle) (size refs : Z) : Block.t :=
  Block.mk device (MachInt.to_size_t size) refs.

(** [cudaMemcpy(destination, state_->lines->norm4, output_size,
    cudaMemcpyDefault)]: the bytes stored at the destination. *)
Definition copy_result (output_size : Z) : M Buffer :=
  st ← gets Kernel.state_;
  modify (Kernel.log (CopyResult (MachInt.to_size_t output_size)));;
  mret (cudaMemcpy (LineState.norm4 (GlobalState.lines st))
          (MachInt.to_size_t output_size)).

(** [delTexture(algo_params_->num_img_processed, state_->imgs, state_->cuArray)] *)
Definition release_textures : M unit :=
  ap ← gets Kernel.algo_params_;
  modify_state (fun g =>
    GlobalState.set_textures
      (delTexture (AlgorithmParameters.num_img_processed ap) (GlobalState.textures g)) g);;
  modify (Kernel.log (ReleaseTextures (AlgorithmParameters.num_img_processed ap))).

(** [INSERT_ROW(output_columns[0], buffer, size)]: appends a row to the first
    output column. *)
Definition INSERT_ROW (output_columns : list RowList.t) (buffer : Pointer.t)
    (size : Z) : M (list RowList.t) :=
  column ← index output_columns 0;
  mret (<[0%nat := RowList.push_back (Row.mk _ buffer (MachInt.to_size_t size)) column]>
          output_columns).

(** [output_buffer + output_size * i]: the offset of row [i] in the output
    block, an [i32] product. *)
Definition row_offset (output_size i : Z) : Z := MachInt.mul_i32 output_size i.

(** The body of the per-frame loop of [execute] (lines 133-158); the locals
    it updates are [grayscale_images] and [output_columns].  The result is
    copied to [output_buffer + output_size * i], and the row inserted points
    there. *)
Definition execute_frame (input_columns : list RowList.t)
    (width height output_size : Z) (output_buffer : Block.t) (i : Z)
    (locals : list Image * list RowList.t) : M (list Image * list RowList.t) :=
  num_cameras ← gets Kernel.num_cameras_;
  grayscale_images ←
    for_i32 num_cameras (preprocess_camera input_columns width height i) locals.1;
  bind_textures grayscale_images;;
  run_solver;;
  result ← copy_result output_size;
  output_columns ←
    INSERT_ROW locals.2
      (Pointer.mk _ output_buffer (row_offset output_size i) result) output_size;
  release_textures;;
  mret (grayscale_images, output_columns).

(** [GipumaKernel::execute(input_columns, output_columns)]; returns the output
    columns.  The rows of a batch point into one block of
    [output_size * input_count] bytes, an [i32] product. *)
Definition execute (input_columns output_columns : list RowList.t)
    : M (list RowList.t) :=
  set_device;;
  frame_info ← index input_columns 1;
  check_frame_info frame_info;;
  width ← gets (fun k => FrameInfo.width (Kernel.frame_info_ k));
  height ← gets (fun k => FrameInfo.height (Kernel.frame_info_ k));
  let output_size := output_size_of width height in
  column0 ← index input_columns 0;
  let input_count := MachInt.wrap_i32 (Z.of_nat (length (RowList.rows column0))) in
  num_cameras ← gets Kernel.num_cameras_;
  let grayscale_images := replicate (Z.to_nat num_cameras) Mat_new in
  device ← gets Kernel.device_;
  let output_buffer :=
    new_block_buffer device (MachInt.mul_i32 output_size input_count) input_count in
  locals ← for_i32 input_count
              (execute_frame input_columns width height output_size output_buffer)
              (grayscale_images, output_columns);
  mret locals.2.

(** ** What the planner leaves behind

    Closed forms of the two loops of [new_frame_info], used to state what the
    planner computes. *)

(** The depth bounds the per-camera loop writes into a camera. *)
Definition with_depth_bounds (ap : AlgorithmParameters.t) (c : Camera.t) : Camera.t :=
  Camera.set_depthMax (AlgorithmParameters.depthMax ap)
    (Camera.set_depthMin (AlgorithmParameters.depthMin ap) c).

Definition with_depth_bounds_cu (ap : AlgorithmParameters.t) (c : Camera_cu.t)
    : Camera_cu.t :=
  Camera_cu.set_depthMax (AlgorithmParameters.depthMax ap)
    (Camera_cu.set_depthMin (AlgorithmParameters.depthMin ap) c).

(** The disparity bounds derived from one baseline. *)
Definition with_disparity_of (f baseline : float) (ap : AlgorithmParameters.t)
    : AlgorithmParameters.t :=
  AlgorithmParameters.set_max_disparity
    (disparityDepthConversion f baseline (AlgorithmParameters.depthMin ap))
    (AlgorithmParameters.set_min_disparity
       (disparityDepthConversion f baseline (AlgorithmParameters.depthMax ap)) ap).

(** The kernel after [count] iterations of the per-camera loop. *)
Definition cameras_planned (count : nat) (k : Kernel.t) : Kernel.t :=
  let ap := Kernel.algo_params_ k in
  let cp := Kernel.camera_params_ k in
  let cams := CameraParameters.cameras cp in
  let cu := GlobalState.cameras (Kernel.state_ k) in
  Kernel.set_algo_params_
    (match last (take count cams) with
     | Some c => with_disparity_of (CameraParameters.f cp) (Camera.baseline c) ap
     | None => ap
     end)
    (Kernel.set_state_
       (GlobalState.set_cameras
          (CameraParameters_cu.set_cameras
             ((with_depth_bounds_cu ap <$> take count (CameraParameters_cu.cameras cu))
                ++ drop count (CameraParameters_cu.cameras cu)) cu)
          (Kernel.state_ k))
       (Kernel.set_camera_params_
          (CameraParameters.set_cameras
             ((with_depth_bounds ap <$> take count cams) ++ drop count cams) cp)
          k)).

(** The kernel after [count] iterations of the copy loop. *)
Definition views_copied (count : nat) (k : Kernel.t) : Kernel.t :=
  let cu := GlobalState.cameras (Kernel.state_ k) in
  Kernel.set_state_
    (GlobalState.set_cameras
       (CameraParameters_cu.set_viewSelectionSubset
          (take count (CameraParameters.viewSelectionSubset (Kernel.camera_params_ k))
             ++ drop count (CameraParameters_cu.viewSelectionSubset cu)) cu)
       (Kernel.state_ k))
    k.

(** The view-selection subset [selectViews] computes for the kernel's rig and
    frame geometry. *)
Definition selected_views (k : Kernel.t) : list Z :=
  CameraParameters.viewSelectionSubset
    (selectViews (Kernel.camera_params_ k)
       (FrameInfo.width (Kernel.frame_info_ k))
       (FrameInfo.height (Kernel.frame_info_ k))
       (Kernel.algo_params_ k)).

(** The kernel after the straight-line tail of [new_frame_info]
    (lines 101-113). *)
Definition geometry_recorded (selected : Z) (k : Kernel.t) : Kernel.t :=
  let w := FrameInfo.width (Kernel.frame_info_ k) in
  let h := FrameInfo.height (Kernel.frame_info_ k) in
  let cu := GlobalState.cameras (Kernel.state_ k) in
  let lines := GlobalState.lines (Kernel.state_ k) in
  Kernel.log (ResizeLines (MachInt.mul_i32 h w))
    (Kernel.set_algo_params_
       (AlgorithmParameters.set_rows h
          (AlgorithmParameters.set_cols w (Kernel.algo_params_ k)))
       (Kernel.set_state_
          (GlobalState.mk _
             (CameraParameters_cu.mk (CameraParameters_cu.cameras cu)
                (CameraParameters_cu.viewSelectionSubset cu) selected w h)
             true
             (LineState.mk _ (MachInt.mul_i32 h w) w w (MachInt.mul_i32 h w)
                (resized (LineState.norm4 lines) (MachInt.mul_i32 h w)))
             (GlobalState.textures (Kernel.state_ k)))
          k)).

(** The kernel [new_frame_info] returns, when it returns. *)
Definition frame_info_planned (k : Kernel.t) : Kernel.t :=
  let w := FrameInfo.width (Kernel.frame_info_ k) in
  let h := FrameInfo.height (Kernel.frame_info_ k) in
  let k1 := Kernel.log (SelectViews w h)
              (Kernel.log (SetDevice (id (Kernel.device_ k))) k) in
  let k2 := Kernel.set_camera_params_
              (selectViews (Kernel.camera_params_ k) w h (Kernel.algo_params_ k)) k1 in
  let selected := length (selected_views k) in
  geometry_recorded (Z.of_nat selected)
    (views_copied selected
       (cameras_planned (Z.to_nat (Kernel.num_cameras_ k)) k2)).

(** The conditions under which every access of [new_frame_info] is in range
    and its assertion holds: the per-camera loop stays inside both camera
    arrays, at least one view is selected, and the selected views fit the
    solver's array. *)
Definition plannable (k : Kernel.t) : bool :=
  let cu := GlobalState.cameras (Kernel.state_ k) in
  (Z.to_nat (Kernel.num_cameras_ k)
     <=? length (CameraParameters.cameras (Kernel.camera_params_ k)))%nat
  && (Z.to_nat (Kernel.num_cameras_ k)
        <=? length (CameraParameters_cu.cameras cu))%nat
  && (0 <? length (selected_views k))%nat
  && (length (selected_views k)
        <=? length (CameraParameters_cu.viewSelectionSubset cu))%nat
  && (Z.of_nat (length (selected_views k)) <? 2 ^ 31).

(** A valid rig: the kernel's camera count is the number of calibrated
    cameras, the solver's arrays have room for them, and at least one
    auxiliary view qualifies. *)
Definition valid_rig (k : Kernel.t) : bool :=
  let cp := Kernel.camera_params_ k in
  let cu := GlobalState.cameras (Kernel.state_ k) in
  (Z.of_nat (length (CameraParameters.cameras cp)) =? Kernel.num_cameras_ k)
  && (Kernel.num_cameras_ k <? 2 ^ 31)
  && (length (CameraParameters.cameras cp)
        <=? length (CameraParameters_cu.cameras cu))%nat
  && (length (CameraParameters.cameras cp)
        <=? length (CameraParameters_cu.viewSelectionSubset cu))%nat
  && match CameraParameters.cameras cp with
     | [] => false
     | ref :: others =>
         existsb
           (within_angle_bounds (Kernel.algo_params_ k) ref
              (FrameInfo.width (Kernel.frame_info_ k))
              (FrameInfo.height (Kernel.frame_info_ k)))
           others
     end.

(** The numbers of texture bindings, of texture releases and of resize
    requests in a call record. *)
Fixpoint bindings (calls : list gpu_call) : Z :=
  match calls with
  | [] => 0
  | BindTextures _ :: rest => 1 + bindings rest
  | _ :: rest => bindings rest
  end.

Fixpoint releases (calls : list gpu_call) : Z :=
  match calls with
  | [] => 0
  | ReleaseTextures _ :: rest => 1 + releases rest
  | _ :: rest => releases rest
  end.


(** ** What the specification asks of a batch

    The rows of a batch, frame-set by frame-set: frame-set [i] holds row [i]
    of the image column of every camera (column [2 * c] for camera [c]). *)
Definition camera_row (input_columns : list RowList.t) (i c : nat) : option Row.t :=
  column ← input_columns !! (2 * c)%nat;
  RowList.rows column !! i.

Definition frame_set (input_columns : list RowList.t) (num_cameras : nat) (i : nat)
    : option (list Row.t) :=
  mapM (camera_row input_columns i) (seq 0 num_cameras).

Definition frame_sets (input_columns : list RowList.t) (num_cameras count : nat)
    : option (list (list Row.t)) :=
  mapM (frame_set input_columns num_cameras) (seq 0 count).

(** The grayscale image preprocessing makes of an input row. *)
Definition grayscale (fi : FrameInfo.t) (r : Row.t) : Image :=
  bgr_to_gray32f (FrameInfo.height fi) (FrameInfo.width fi)
    (Pointer.contents (Row.buffer r)).

(** The four states a frame-set goes through after preprocessing:
    TextureBound, Solving, Extracting, Released; the result is what
    Extracting copies out of the solver's memory. *)
Definition solve_frame_set (output_size : Z) (rows : list Row.t) : M Buffer :=
  fi ← gets Kernel.frame_info_;
  bind_textures (grayscale fi <$> rows);;
  run_solver;;
  result ← copy_result output_size;
  release_textures;;
  mret result.

(** One result per frame-set, in the order of the frame-sets. *)
Fixpoint solve_batch (output_size : Z) (batch : list (list Row.t)) : M (list Buffer) :=
  match batch with
  | [] => mret []
  | rows :: rest =>
      r ← solve_frame_set output_size rows;
      rs ← solve_batch output_size rest;
      mret (r :: rs)
  end.

(** Whether the rows of a frame-set have the size of a packed 8-bit colour
    frame. *)
Definition sizes_match (width height : Z) (rows : list Row.t) : bool :=
  forallb (fun r => Row.size r =? expected_input_size width height) rows.

(** [solve_batch] preceded, for every frame-set, by the size assertions of
    preprocessing. *)
Fixpoint checked_batch (width height output_size : Z) (batch : list (list Row.t))
    : M (list Buffer) :=
  match batch with
  | [] => mret []
  | rows :: rest =>
      assert (sizes_match width height rows);;
      r ← solve_frame_set output_size rows;
      rs ← checked_batch width height output_size rest;
      mret (r :: rs)
  end.

(** The rows [execute] inserts for the results of a batch, the first of them
    being row [i] of the output block: each points to
    [output_buffer + output_size * j] for its index [j] and has [output_size]
    bytes ([size_t]). *)
Fixpoint block_rows (output_buffer : Block.t) (output_size i : Z)
    (results : list Buffer) : list Row.t :=
  match results with
  | [] => []
  | result :: rest =>
      Row.mk _ (Pointer.mk _ output_buffer (row_offset output_size i) result)
        (MachInt.to_size_t output_size)
      :: block_rows output_buffer output_size (i + 1) rest
  end.

(** Whether the bytes of a row lie inside the block its buffer points into. *)
Definition inside_block (r : Row.t) : bool :=
  (0 <=? Pointer.offset (Row.buffer r))
  && (Pointer.offset (Row.buffer r) + Row.size r
        <=? Block.bytes (Pointer.block (Row.buffer r))).

(** Whether two rows that point into the same block share bytes of it. *)
Definition rows_overlap (r1 r2 : Row.t) : bool :=
  (0 <? Row.size r1) && (0 <? Row.size r2)
  && (Pointer.offset (Row.buffer r1) <? Pointer.offset (Row.buffer r2) + Row.size r2)
  && (Pointer.offset (Row.buffer r2) <? Pointer.offset (Row.buffer r1) + Row.size r1).

(** ** Shapes used to state what the kernel reads and calls *)

(** The 3 x 4 matrix whose rows are the first twelve entries of a flattened
    projection matrix. *)
Definition matrix_3x4 (p : list float) : list (list float) :=
  [take 4 p; take 4 (drop 4 p); take 4 (drop 8 p)].

(** The camera the constructor appends for a flattened projection matrix. *)
Definition camera_of_matrix (p : list float) : Camera.t :=
  Camera.set_P (matrix_3x4 p) Camera_new.

(** The algorithm parameters the constructor leaves for parsed arguments. *)
Definition configured_params (args : GipumaArgs.t) : AlgorithmParameters.t :=
  AlgorithmParameters.mk (GipumaArgs.cameras_size args) (F32.of_Z 1) (F32.of_Z 90)
    (GipumaArgs.min_disparity args) (GipumaArgs.max_disparity args)
    (GipumaArgs.min_depth args) (GipumaArgs.max_depth args)
    (GipumaArgs.iterations args) (GipumaArgs.kernel_width args)
    (GipumaArgs.kernel_height args)
    (AlgorithmParameters.cols AlgorithmParameters_new)
    (AlgorithmParameters.rows AlgorithmParameters_new).

(** The rig handed to [getCameraParameters] for parsed arguments. *)
Definition cameras_read (args : GipumaArgs.t) : CameraParameters.t :=
  CameraParameters.set_cameras
    (CameraParameters.cameras CameraParameters_new
       ++ (camera_of_matrix <$> GipumaArgs.cameras args))
    CameraParameters_new.

(** The calls of one frame: TextureBound, Solving, Extracting, Released. *)
Definition frame_cycle (images : nat) (bytes released : Z) : list gpu_call :=
  [BindTextures images; RunSolver; CopyResult bytes; ReleaseTextures released].

(** ** Invariants of member functions

    [preserves I m]: started in a state satisfying [I], the call [m] ends in a
    state satisfying [I] on each of its exit paths, the return and the failed
    assertion. *)
Definition preserves {A : Type} (I : Kernel.t -> Prop) (m : M A) : Prop :=
  forall k, I k ->
    match m k with
    | Done _ k' => I k'
    | Abort k' => I k'
    | Undefined => True
    end.

(** Texture bindings not yet matched by a release. *)
Definition open_textures (k : Kernel.t) : Z :=
  bindings (Kernel.calls k) - releases (Kernel.calls k).

End GipumaKernel.

(** ** A mock of the collaborators

    A small executable instance of the interface, used to run the kernel on
    concrete inputs: buffers and images are lists of integers, the rig builder
    places the cameras 10 units apart along a line with focal length 700, every
    auxiliary camera is seen under 45 degrees, the solver's result is the
    concatenation of the bound images, and a resize leaves memory that holds
    its number of elements. *)
Module Mock.

#[export] Instance memory : MemoryModel :=
  {| Buffer := list Z; Image := list Z; Textures := list (list Z) |}.

Definition identity_P : list float :=
  F32.of_Z <$> [1; 0; 0; 0;  0; 1; 0; 0;  0; 0; 1; 0].

(** The first byte of the blob is the number of cameras. *)
Definition parse (blob : list Byte.byte) : option GipumaArgs.t :=
  match blob with
  | [] => None
  | b :: _ =>
      Some (GipumaArgs.mk (replicate (Byte.to_nat b) identity_P)
              (F32.of_Z 0) (F32.of_Z 0) (F32.of_Z 1) (F32.of_Z 100) 8 5 5)
  end.

Definition build_rig (cu : CameraParameters_cu.t) (cp : CameraParameters.t)
    : CameraParameters_cu.t * CameraParameters.t :=
  (cu,
   CameraParameters.mk
     (imap (fun i c =>
              Camera.mk (Camera.P c) (F32.of_Z (10 * Z.of_nat i))
                (Camera.depthMin c) (Camera.depthMax c))
        (CameraParameters.cameras cp))
     (F32.of_Z 700)
     (CameraParameters.viewSelectionSubset cp)).

Definition geometry (column : RowList.t) : FrameInfo.t :=
  match RowList.rows column with
  | r :: _ =>
      match Pointer.contents (Row.buffer r) with
      | w :: h :: _ => FrameInfo.mk w h
      | _ => FrameInfo.mk 0 0
      end
  | [] => FrameInfo.mk 0 0
  end.

Definition solver (g : GlobalState.t) (ap : AlgorithmParameters.t)
    : GlobalState.t * AlgorithmParameters.t :=
  (GlobalState.set_lines
     (LineState.mk _ (LineState.n (GlobalState.lines g))
        (LineState.s (GlobalState.lines g)) (LineState.l (GlobalState.lines g))
        (LineState.elements (GlobalState.lines g))
        (concat (GlobalState.textures g))) g,
   ap).

#[export] Instance collaborators : Collaborators := {|
  ParseFromArray := parse;
  Camera_new := Camera.mk [] (F32.of_Z 0) (F32.of_Z 0) (F32.of_Z 0);
  CameraParameters_new := CameraParameters.mk [] (F32.of_Z 0) [];
  AlgorithmParameters_new :=
    AlgorithmParameters.mk 0 (F32.of_Z 0) (F32.of_Z 0) (F32.of_Z 0) (F32.of_Z 0)
      (F32.of_Z 0) (F32.of_Z 0) 0 0 0 0 0;
  GlobalState_new :=
    GlobalState.mk _
      (CameraParameters_cu.mk
         (replicate 8 (Camera_cu.mk (F32.of_Z 0) (F32.of_Z 0)))
         (replicate 8 0) 0 0 0)
      false
      (LineState.mk _ 0 0 0 0 [])
      [];
  Mat_new := [];
  getCameraParameters := build_rig;
  viewAngle := fun _ _ _ _ => F32.of_Z 45;
  frame_info_of := geometry;
  bgr_to_gray32f := fun _ _ buffer => buffer;
  addImageToTextureFloatGray := fun images _ => images;
  runcuda := solver;
  cudaMemcpy := fun source _ => source;
  delTexture := fun _ _ => [];
  resized := fun _ n => [n]
|}.

(** A configuration declaring [cameras] cameras with the given input
    columns. *)
Definition config (cameras : nat) (input_columns : list string) : Config.t :=
  Config.mk [Build_DeviceHandle 0] [default Byte.x00 (Byte.of_nat cameras)]
    input_columns.

(** The kernel a call leaves behind. *)
Definition constructed {A : Type} (o : outcome Kernel.t A) : Kernel.t :=
  match o with
  | Done _ k => k
  | Abort k => k
  | Undefined => members (Build_DeviceHandle 0)
  end.

(** A kernel for two cameras, and one for a single camera. *)
Definition two_cameras : Kernel.t :=
  constructed (GipumaKernel_new (config 2 ["frame0"; "info0"; "frame1"; "info1"])).

Definition one_camera : Kernel.t :=
  constructed (GipumaKernel_new (config 1 ["frame0"; "info0"])).

(** The rig of the concrete scenario: two cameras, each with a 10-unit
    baseline, focal length 700, depth bounds 1 and 100. *)
Definition scenario : Kernel.t :=
  Kernel.set_camera_params_
    (CameraParameters.mk
       ((fun c => Camera.mk (Camera.P c) (F32.of_Z 10) (Camera.depthMin c)
                    (Camera.depthMax c))
          <$> CameraParameters.cameras (Kernel.camera_params_ two_cameras))
       (F32.of_Z 700) [])
    two_cameras.

(** A row of [size] bytes the host provides, at the start of a block of its
    own; a frame-info column announcing [width] x [height] frames, and an
    image row. *)
Definition host_row (contents : list Z) (size : Z) : Row.t :=
  Row.mk _ (Pointer.mk _ (Block.mk (Build_DeviceHandle 0) size 1) 0 contents) size.

Definition info_column (width height : Z) (count : nat) : RowList.t :=
  RowList.mk _ (replicate count (host_row [width; height] 2)).

Definition image_row (pixels : list Z) (size : Z) : Row.t := host_row pixels size.

(** The two-camera and the single-camera kernel facing 4 x 3 frames. *)
Definition facing_4x3 : Kernel.t :=
  Kernel.set_frame_info_ (FrameInfo.mk 4 3) two_cameras.

Definition lone_4x3 : Kernel.t :=
  Kernel.set_frame_info_ (FrameInfo.mk 4 3) one_camera.

(** A batch of two 4 x 3 frame-sets for two cameras (36 bytes per image), and
    the same batch with the second image of the first camera one byte
    short. *)
Definition batch_columns : list RowList.t :=
  [RowList.mk _ [image_row [1; 2] 36; image_row [3; 4] 36];
   info_column 4 3 2;
   RowList.mk _ [image_row [5; 6] 36; image_row [7; 8] 36];
   info_column 4 3 2].

Definition short_batch_columns : list RowList.t :=
  [RowList.mk _ [image_row [1; 2] 36; image_row [3; 4] 35];
   info_column 4 3 2;
   RowList.mk _ [image_row [5; 6] 36; image_row [7; 8] 36];
   info_column 4 3 2].

Definition no_rows : RowList.t := RowList.mk _ [].

(** The frame-sets of the two batches. *)
Definition batch_frame_sets : list (list Row.t) :=
  default [] (frame_sets batch_columns 2 2).

Definition short_batch_frame_sets : list (list Row.t) :=
  default [] (frame_sets short_batch_columns 2 2).

(** The last camera of a kernel's rig. *)
Definition last_camera (k : Kernel.t) : Camera.t :=
  default Camera_new (last (CameraParameters.cameras (Kernel.camera_params_ k))).

(** The two-camera kernel once [execute] has set the device and checked the
    frame geometry of a batch. *)
Definition checked_for_batch : Kernel.t :=
  constructed
    (check_frame_info (info_column 4 3 2) (Kernel.log (SetDevice 0) two_cameras)).

(** A second mock whose parser yields one camera with a three-entry matrix,
    a batch without rows, and the two-frame batch with the metadata column of
    the second camera emptied. *)
Definition parse_short (blob : list Byte.byte) : option GipumaArgs.t :=
  Some (GipumaArgs.mk [F32.of_Z <$> [1; 0; 0]]
          (F32.of_Z 0) (F32.of_Z 0) (F32.of_Z 1) (F32.of_Z 100) 8 5 5).

Definition short_matrix_collaborators : Collaborators := {|
  ParseFromArray := parse_short;
  Camera_new := Camera_new;
  CameraParameters_new := CameraParameters_new;
  AlgorithmParameters_new := AlgorithmParameters_new;
  GlobalState_new := GlobalState_new;
  Mat_new := Mat_new;
  getCameraParameters := build_rig;
  viewAngle := viewAngle;
  frame_info_of := geometry;
  bgr_to_gray32f := bgr_to_gray32f;
  addImageToTextureFloatGray := addImageToTextureFloatGray;
  runcuda := solver;
  cudaMemcpy := cudaMemcpy;
  delTexture := delTexture;
  resized := resized
|}.

Definition empty_batch_columns : list RowList.t :=
  [no_rows; info_column 4 3 2].

Definition batch_columns_without_metadata : list RowList.t :=
  [RowList.mk _ [image_row [1; 2] 36; image_row [3; 4] 36];
   info_column 4 3 2;
   RowList.mk _ [image_row [5; 6] 36; image_row [7; 8] 36];
   no_rows].

(** A batch of five 8192 x 8192 frame-sets for two cameras (201326592 bytes
    per image): its five results take 5 * 2^30 bytes. *)
Definition large_batch_columns : list RowList.t :=
  [RowList.mk _ ((fun p => image_row [p] 201326592) <$> [1; 2; 3; 4; 5]);
   info_column 8192 8192 5;
   RowList.mk _ ((fun p => image_row [p] 201326592) <$> [11; 12; 13; 14; 15]);
   info_column 8192 8192 5].

End Mock.

(** ** Properties of the kernel *)
Section Properties.
Context `{ext : Collaborators}.

Lemma wrap_i32_small (z : Z) : - 2 ^ 31 <= z < 2 ^ 31 -> MachInt.wrap_i32 z = z.
Proof.
  intros Hz. unfold MachInt.wrap_i32.
  rewrite Z.mod_small; lia.
Qed.

Lemma to_size_t_small (z : Z) : 0 <= z < 2 ^ 64 -> MachInt.to_size_t z = z.
Proof. intros Hz. unfold MachInt.to_size_t. apply Z.mod_small. exact Hz. Qed.

Lemma index_lookup {A : Type} (v : list A) (i : nat) (a : A) (k : Kernel.t) :
  v !! i = Some a -> index v (Z.of_nat i) k = Done a k.
Proof.
  intros Hv. unfold index.
  destruct (Z.ltb_spec (Z.of_nat i) 0) as [Hneg|_]; [lia|].
  rewrite Nat2Z.id, Hv. reflexivity.
Qed.

Lemma for_loop_snoc {A : Type} (count : nat) (i : Z) (body : Z -> A -> M A)
    (a : A) (k : Kernel.t) :
  for_loop (S count) i body a k =
  (a' ← for_loop count i body a; body (i + Z.of_nat count) a') k.
Proof.
  revert i a k. induction count as [|count IH]; intros i a k.
  - simpl. unfold mbind, M_bind, mret, M_ret. rewrite Z.add_0_r.
    destruct (body i a k); reflexivity.
  - change (for_loop (S (S count)) i body a k)
      with ((a' ← body i a; for_loop (S count) (i + 1) body a') k).
    unfold mbind, M_bind at 1.
    change (for_loop (S count) i body a)
      with (a' ← body i a; for_loop count (i + 1) body a').
    unfold mbind, M_bind.
    destruct (body i a k) as [a' k'| |]; try reflexivity.
    rewrite IH. unfold mbind, M_bind.
    replace (i + 1 + Z.of_nat count) with (i + Z.of_nat (S count)) by lia.
    reflexivity.
Qed.

Lemma insert_take_drop {A : Type} (g : A -> A) (l : list A) (n : nat) (x : A) :
  l !! n = Some x ->
  <[n := g x]> ((g <$> take n l) ++ drop n l) = (g <$> take (S n) l) ++ drop (S n) l.
Proof.
  intros Hx.
  assert (Hlen : (n < length l)%nat) by (eapply lookup_lt_Some; eauto).
  rewrite (take_S_r _ _ _ Hx), (drop_S _ _ _ Hx), fmap_app.
  rewrite insert_app_r_alt by (rewrite length_fmap, length_take; lia).
  rewrite length_fmap, length_take.
  replace (n - n `min` length l)%nat with 0%nat by lia.
  simpl. rewrite <- app_assoc. reflexivity.
Qed.

Lemma insert_take_drop_copy {A : Type} (src dst : list A) (n : nat) (x : A) :
  src !! n = Some x -> (n < length dst)%nat ->
  <[n := x]> (take n src ++ drop n dst) = take (S n) src ++ drop (S n) dst.
Proof.
  intros Hx Hdst.
  assert (Hlen : (n < length src)%nat) by (eapply lookup_lt_Some; eauto).
  destruct (lookup_lt_is_Some_2 dst n Hdst) as [y Hy].
  rewrite (take_S_r _ _ _ Hx), (drop_S _ _ _ Hy).
  rewrite insert_app_r_alt by (rewrite length_take; lia).
  rewrite length_take.
  replace (n - n `min` length src)%nat with 0%nat by lia.
  simpl. rewrite <- app_assoc. reflexivity.
Qed.

Lemma lookup_take_drop {A : Type} (g : A -> A) (l : list A) (n : nat) :
  ((g <$> take n l) ++ drop n l) !! n = l !! n.
Proof.
  destruct (decide (n <= length l)%nat) as [Hle|Hgt].
  - rewrite lookup_app_r by (rewrite length_fmap, length_take; lia).
    rewrite length_fmap, length_take, lookup_drop. f_equal. lia.
  - rewrite take_ge, drop_ge by lia. rewrite app_nil_r.
    rewrite !lookup_ge_None_2; [reflexivity | lia | rewrite length_fmap; lia].
Qed.


Lemma index_insert {A : Type} (v : list A) (i : nat) (a x : A) (k : Kernel.t) :
  v !! i = Some a -> index (<[i := x]> v) (Z.of_nat i) k = Done x k.
Proof.
  intros Hv. apply index_lookup. apply list_lookup_insert_eq.
  eapply lookup_lt_Some; eauto.
Qed.

Lemma plan_camera_Done (i : nat) (k : Kernel.t) (c : Camera.t) (d : Camera_cu.t) :
  CameraParameters.cameras (Kernel.camera_params_ k) !! i = Some c ->
  CameraParameters_cu.cameras (GlobalState.cameras (Kernel.state_ k)) !! i = Some d ->
  plan_camera (Z.of_nat i) k =
  Done tt
    (Kernel.set_algo_params_
       (with_disparity_of (CameraParameters.f (Kernel.camera_params_ k))
          (Camera.baseline c) (Kernel.algo_params_ k))
       (Kernel.set_state_
          (GlobalState.set_cameras
             (CameraParameters_cu.set_cameras
                (<[i := with_depth_bounds_cu (Kernel.algo_params_ k) d]>
                   (CameraParameters_cu.cameras (GlobalState.cameras (Kernel.state_ k))))
                (GlobalState.cameras (Kernel.state_ k)))
             (Kernel.state_ k))
          (Kernel.set_camera_params_
             (CameraParameters.set_cameras
                (<[i := with_depth_bounds (Kernel.algo_params_ k) c]>
                   (CameraParameters.cameras (Kernel.camera_params_ k)))
                (Kernel.camera_params_ k))
             k))).
Proof.
  intros Hc Hd.
  destruct k as [dev valid args [cams f sel] ap [[cucams cusel cunum cucols curows] pset lines tex] n fi calls].
  simpl in Hc, Hd.
  unfold plan_camera, assign_camera, assign_camera_cu, modify_camera_params,
    modify_state_cameras, modify_state, modify_algo_params, modify, gets.
  unfold mbind, M_bind. simpl.
  rewrite Nat2Z.id.
  rewrite (index_lookup _ _ _ _ Hc). simpl.
  rewrite (index_insert _ _ _ _ _ Hc). simpl.
  rewrite (index_lookup _ _ _ _ Hd). simpl.
  rewrite (index_insert _ _ _ _ _ Hd). simpl.
  rewrite !list_insert_insert_eq.
  rewrite (index_insert _ _ _ _ _ Hc). simpl.
  rewrite (index_insert _ _ _ _ _ Hc). simpl.
  reflexivity.
Qed.


Lemma cameras_planned_0 (k : Kernel.t) : cameras_planned 0 k = k.
Proof.
  destruct k as [dev valid args [cams f sel] ap [[cucams cusel cunum cucols curows] pset lines tex] n fi calls].
  reflexivity.
Qed.

Lemma cameras_loop_Done (count : nat) (k : Kernel.t) :
  (count <= length (CameraParameters.cameras (Kernel.camera_params_ k)))%nat ->
  (count <= length (CameraParameters_cu.cameras (GlobalState.cameras (Kernel.state_ k))))%nat ->
  for_loop count 0 (fun i _ => plan_camera i) tt k = Done tt (cameras_planned count k).
Proof.
  induction count as [|count IH]; intros Hcams Hcu.
  - simpl. rewrite cameras_planned_0. reflexivity.
  - rewrite for_loop_snoc. unfold mbind, M_bind.
    rewrite IH by lia. rewrite Z.add_0_l.
    destruct (lookup_lt_is_Some_2 _ count Hcams) as [c Hc].
    destruct (lookup_lt_is_Some_2 _ count Hcu) as [d Hd].
    rewrite (plan_camera_Done count _ c d).
    + f_equal.
      destruct k as [dev valid args [cams f sel] ap [[cucams cusel cunum cucols curows] pset lines tex] n fi calls].
      simpl in *. unfold cameras_planned. simpl.
      rewrite (take_S_r _ _ _ Hc), last_snoc.
      assert (Hap : forall o : option Camera.t,
                 let ap' := match o with
                            | Some c' => with_disparity_of f (Camera.baseline c') ap
                            | None => ap
                            end in
                 with_depth_bounds ap' = with_depth_bounds ap
                 /\ with_depth_bounds_cu ap' = with_depth_bounds_cu ap
                 /\ with_disparity_of f (Camera.baseline c) ap'
                    = with_disparity_of f (Camera.baseline c) ap).
      { intros [c'|]; simpl; repeat split; reflexivity. }
      destruct (Hap (last (take count cams))) as (-> & -> & ->).
      rewrite (insert_take_drop _ _ _ _ Hc), (insert_take_drop _ _ _ _ Hd).
      rewrite (take_S_r _ _ _ Hc).
      reflexivity.
    + unfold cameras_planned. simpl. rewrite lookup_take_drop. exact Hc.
    + unfold cameras_planned. simpl. rewrite lookup_take_drop. exact Hd.
Qed.


Lemma copy_view_Done (i : nat) (k : Kernel.t) (v : Z) :
  CameraParameters.viewSelectionSubset (Kernel.camera_params_ k) !! i = Some v ->
  (i < length (CameraParameters_cu.viewSelectionSubset
                 (GlobalState.cameras (Kernel.state_ k))))%nat ->
  copy_view (Z.of_nat i) k =
  Done tt
    (Kernel.set_state_
       (GlobalState.set_cameras
          (CameraParameters_cu.set_viewSelectionSubset
             (<[i := v]> (CameraParameters_cu.viewSelectionSubset
                            (GlobalState.cameras (Kernel.state_ k))))
             (GlobalState.cameras (Kernel.state_ k)))
          (Kernel.state_ k))
       k).
Proof.
  intros Hv Hdst.
  destruct (lookup_lt_is_Some_2 _ i Hdst) as [y Hy].
  unfold copy_view, modify_state_cameras, modify_state, modify, gets.
  unfold mbind, M_bind.
  rewrite (index_lookup _ _ _ _ Hv), (index_lookup _ _ _ _ Hy).
  rewrite Nat2Z.id. reflexivity.
Qed.

Lemma views_copied_0 (k : Kernel.t) : views_copied 0 k = k.
Proof.
  destruct k as [dev valid args [cams f sel] ap [[cucams cusel cunum cucols curows] pset lines tex] n fi calls].
  reflexivity.
Qed.

Lemma views_loop_Done (count : nat) (k : Kernel.t) :
  (count <= length (CameraParameters.viewSelectionSubset (Kernel.camera_params_ k)))%nat ->
  (count <= length (CameraParameters_cu.viewSelectionSubset
                      (GlobalState.cameras (Kernel.state_ k))))%nat ->
  for_loop count 0 (fun i _ => copy_view i) tt k = Done tt (views_copied count k).
Proof.
  induction count as [|count IH]; intros Hsrc Hdst.
  - simpl. rewrite views_copied_0. reflexivity.
  - rewrite for_loop_snoc. unfold mbind, M_bind.
    rewrite IH by lia. rewrite Z.add_0_l.
    destruct (lookup_lt_is_Some_2 _ count Hsrc) as [v Hv].
    rewrite (copy_view_Done count _ v).
    + f_equal.
      destruct k as [dev valid args [cams f sel] ap [[cucams cusel cunum cucols curows] pset lines tex] n fi calls].
      simpl in *. unfold views_copied. simpl.
      rewrite (insert_take_drop_copy _ _ _ _ Hv) by lia.
      reflexivity.
    + exact Hv.
    + unfold views_copied. simpl.
      rewrite length_app, length_take, length_drop. lia.
Qed.

Lemma plannable_spec (k : Kernel.t) :
  plannable k = true ->
  (Z.to_nat (Kernel.num_cameras_ k)
     <= length (CameraParameters.cameras (Kernel.camera_params_ k)))%nat
  /\ (Z.to_nat (Kernel.num_cameras_ k)
      <= length (CameraParameters_cu.cameras (GlobalState.cameras (Kernel.state_ k))))%nat
  /\ (0 < length (selected_views k))%nat
  /\ (length (selected_views k)
      <= length (CameraParameters_cu.viewSelectionSubset
                   (GlobalState.cameras (Kernel.state_ k))))%nat
  /\ Z.of_nat (length (selected_views k)) < 2 ^ 31.
Proof.
  unfold plannable. rewrite !andb_true_iff.
  rewrite !Nat.leb_le, Nat.ltb_lt, Z.ltb_lt. tauto.
Qed.

Lemma new_frame_info_Done (k : Kernel.t) :
  plannable k = true -> new_frame_info k = Done tt (frame_info_planned k).
Proof.
  intros Hk. apply plannable_spec in Hk.
  destruct Hk as (Hcams & Hcu & Hpos & Hfit & Hsmall).
  unfold new_frame_info.
  unfold set_device, modify_state_cameras, modify_lines, modify_state,
    modify_algo_params, modify, gets, assert, for_i32.
  unfold mbind, M_bind.
  cbn [Kernel.camera_params_ Kernel.set_camera_params_ Kernel.log
       Kernel.frame_info_ Kernel.algo_params_ Kernel.num_cameras_].
  fold (selected_views k).
  rewrite wrap_i32_small by lia.
  destruct (Z.ltb_spec 0 (Z.of_nat (length (selected_views k)))) as [_|]; [|lia].
  rewrite cameras_loop_Done by exact Hcams || exact Hcu.
  rewrite Nat2Z.id.
  rewrite views_loop_Done.
  - reflexivity.
  - apply Nat.le_refl.
  - exact Hfit.
Qed.


Lemma new_frame_info_Abort (k : Kernel.t) :
  selected_views k = [] ->
  new_frame_info k =
  Abort
    (Kernel.set_camera_params_
       (selectViews (Kernel.camera_params_ k)
          (FrameInfo.width (Kernel.frame_info_ k))
          (FrameInfo.height (Kernel.frame_info_ k)) (Kernel.algo_params_ k))
       (Kernel.log
          (SelectViews (FrameInfo.width (Kernel.frame_info_ k))
             (FrameInfo.height (Kernel.frame_info_ k)))
          (Kernel.log (SetDevice (id (Kernel.device_ k))) k))).
Proof.
  intros Hsel. unfold new_frame_info.
  unfold set_device, modify, gets, assert.
  unfold mbind, M_bind.
  cbn [Kernel.camera_params_ Kernel.set_camera_params_ Kernel.log
       Kernel.frame_info_ Kernel.algo_params_ Kernel.num_cameras_].
  fold (selected_views k). rewrite Hsel. reflexivity.
Qed.



(** Every selected view is the index of an auxiliary camera. *)
Lemma selected_views_range (k : Kernel.t) (i : Z) :
  i ∈ selected_views k ->
  1 <= i < Z.of_nat (length (CameraParameters.cameras (Kernel.camera_params_ k))).
Proof.
  unfold selected_views, selectViews. simpl.
  destruct (CameraParameters.cameras (Kernel.camera_params_ k)) as [|ref others].
  - intros Hin. inversion Hin.
  - intros Hin. apply list_elem_of_fmap in Hin as ([j c] & -> & Hin).
    apply list_elem_of_filter in Hin as [_ Hin].
    unfold auxiliary_views in Hin.
    apply elem_of_lookup_imap in Hin as (n & c' & Heq & Hn).
    injection Heq as -> ->.
    apply lookup_lt_Some in Hn. simpl. lia.
Qed.

(** A qualifying auxiliary camera makes the selection non-empty. *)
Lemma selected_views_nonempty (k : Kernel.t) (ref : Camera.t) (others : list Camera.t) :
  CameraParameters.cameras (Kernel.camera_params_ k) = ref :: others ->
  existsb
    (within_angle_bounds (Kernel.algo_params_ k) ref
       (FrameInfo.width (Kernel.frame_info_ k))
       (FrameInfo.height (Kernel.frame_info_ k))) others = true ->
  selected_views k <> [].
Proof.
  intros Hcams Hex. apply existsb_exists in Hex as (c & Hc & Hq).
  apply list_elem_of_In, list_elem_of_lookup in Hc as [j Hj].
  assert (Hin : Z.of_nat (S j) ∈ selected_views k).
  { unfold selected_views, selectViews. simpl. rewrite Hcams.
    apply list_elem_of_fmap. exists (Z.of_nat (S j), c). split; [reflexivity|].
    apply list_elem_of_filter. split.
    - simpl. rewrite Hq. exact I.
    - unfold auxiliary_views. apply elem_of_lookup_imap. eauto. }
  intros Hnil. rewrite Hnil in Hin. inversion Hin.
Qed.

Lemma selected_views_length (k : Kernel.t) :
  (length (selected_views k)
   <= length (CameraParameters.cameras (Kernel.camera_params_ k)))%nat.
Proof.
  unfold selected_views, selectViews. simpl.
  destruct (CameraParameters.cameras (Kernel.camera_params_ k)) as [|ref others].
  - simpl. lia.
  - rewrite length_fmap.
    etransitivity; [apply length_filter|].
    unfold auxiliary_views. rewrite length_imap. simpl. lia.
Qed.

Lemma valid_rig_plannable (k : Kernel.t) : valid_rig k = true -> plannable k = true.
Proof.
  unfold valid_rig, plannable. rewrite !andb_true_iff.
  rewrite !Nat.leb_le, Nat.ltb_lt, Z.eqb_eq, !Z.ltb_lt.
  intros ((((Hn & Hsmall) & Hcu) & Hsub) & Hex).
  pose proof (selected_views_length k) as Hlen.
  assert (Hne : selected_views k <> []).
  { destruct (CameraParameters.cameras (Kernel.camera_params_ k)) as [|ref others] eqn:E;
      [discriminate|].
    eapply selected_views_nonempty; eauto. }
  assert (0 < length (selected_views k))%nat.
  { destruct (selected_views k); [congruence | simpl; lia]. }
  repeat split; lia.
Qed.


Lemma last_take {A : Type} (l : list A) (n : nat) :
  (0 < n <= length l)%nat -> last (take n l) = l !! (n - 1)%nat.
Proof.
  intros Hn. rewrite last_lookup, length_take, Nat.min_l by lia.
  rewrite lookup_take_lt by lia. f_equal. lia.
Qed.

Lemma planned_algo_params (k : Kernel.t) :
  Kernel.algo_params_ (frame_info_planned k) =
  AlgorithmParameters.set_rows (FrameInfo.height (Kernel.frame_info_ k))
    (AlgorithmParameters.set_cols (FrameInfo.width (Kernel.frame_info_ k))
       (match last (take (Z.to_nat (Kernel.num_cameras_ k))
                      (CameraParameters.cameras (Kernel.camera_params_ k))) with
        | Some c =>
            with_disparity_of (CameraParameters.f (Kernel.camera_params_ k))
              (Camera.baseline c) (Kernel.algo_params_ k)
        | None => Kernel.algo_params_ k
        end)).
Proof. reflexivity. Qed.

(** The bounds the planner leaves are those of the last camera the loop
    visits. *)
Lemma disparity_from_last_camera (k : Kernel.t) (c : Camera.t) :
  plannable k = true ->
  0 < Kernel.num_cameras_ k ->
  CameraParameters.cameras (Kernel.camera_params_ k)
    !! Z.to_nat (Kernel.num_cameras_ k - 1) = Some c ->
  AlgorithmParameters.min_disparity (Kernel.algo_params_ (frame_info_planned k)) =
    disparityDepthConversion (CameraParameters.f (Kernel.camera_params_ k))
      (Camera.baseline c) (AlgorithmParameters.depthMax (Kernel.algo_params_ k))
  /\ AlgorithmParameters.max_disparity (Kernel.algo_params_ (frame_info_planned k)) =
    disparityDepthConversion (CameraParameters.f (Kernel.camera_params_ k))
      (Camera.baseline c) (AlgorithmParameters.depthMin (Kernel.algo_params_ k)).
Proof.
  intros Hk Hn Hc. apply plannable_spec in Hk as (Hcams & _).
  rewrite planned_algo_params, last_take by lia.
  replace (Z.to_nat (Kernel.num_cameras_ k) - 1)%nat
    with (Z.to_nat (Kernel.num_cameras_ k - 1)) by lia.
  rewrite Hc. split; reflexivity.
Qed.

(** C2 (amended). After the frame-geometry planner runs on a rig with at
    least one camera, the derived disparity bounds are
    minDisparity = f * baseline / depthMax and
    maxDisparity = f * baseline / depthMin for the baseline of the last camera
    (index numCameras - 1) and the shared focal length f; in particular, when
    that baseline is 10, the focal length 700, depthMin 1 and depthMax 100,
    planning yields minDisparity = 70 and maxDisparity = 7000. *)
Theorem planner_derives_disparity_bounds (k : Kernel.t) (c : Camera.t) :
  plannable k = true ->
  0 < Kernel.num_cameras_ k ->
  CameraParameters.cameras (Kernel.camera_params_ k)
    !! Z.to_nat (Kernel.num_cameras_ k - 1) = Some c ->
  exists k',
    new_frame_info k = Done tt k'
    /\ AlgorithmParameters.min_disparity (Kernel.algo_params_ k') =
       F32.div (F32.mul (CameraParameters.f (Kernel.camera_params_ k)) (Camera.baseline c))
         (AlgorithmParameters.depthMax (Kernel.algo_params_ k))
    /\ AlgorithmParameters.max_disparity (Kernel.algo_params_ k') =
       F32.div (F32.mul (CameraParameters.f (Kernel.camera_params_ k)) (Camera.baseline c))
         (AlgorithmParameters.depthMin (Kernel.algo_params_ k))
    /\ (CameraParameters.f (Kernel.camera_params_ k) = F32.of_Z 700 ->
        Camera.baseline c = F32.of_Z 10 ->
        AlgorithmParameters.depthMin (Kernel.algo_params_ k) = F32.of_Z 1 ->
        AlgorithmParameters.depthMax (Kernel.algo_params_ k) = F32.of_Z 100 ->
        AlgorithmParameters.min_disparity (Kernel.algo_params_ k') = F32.of_Z 70
        /\ AlgorithmParameters.max_disparity (Kernel.algo_params_ k') = F32.of_Z 7000).
Proof.
  intros Hk Hn Hc. exists (frame_info_planned k).
  destruct (disparity_from_last_camera k c Hk Hn Hc) as [Hmin Hmax].
  split; [apply new_frame_info_Done; exact Hk|].
  split; [exact Hmin|]. split; [exact Hmax|].
  intros Hf Hb Hdmin Hdmax. rewrite Hmin, Hmax, Hf, Hb, Hdmin, Hdmax.
  split; vm_compute; reflexivity.
Qed.

(** C10. For every rig with two or more cameras, the single
    min_disparity/max_disparity pair the planner stores is derived from the
    baseline of the last camera (index numCameras - 1) only: two rigs that
    agree on the focal length, the depth bounds and the last camera's baseline
    get the same pair, whatever the baselines of their earlier cameras. *)
Theorem disparity_bounds_of_last_camera_only (k1 k2 : Kernel.t) (c1 c2 : Camera.t) :
  plannable k1 = true ->
  plannable k2 = true ->
  2 <= Kernel.num_cameras_ k1 ->
  Kernel.num_cameras_ k2 = Kernel.num_cameras_ k1 ->
  CameraParameters.cameras (Kernel.camera_params_ k1)
    !! Z.to_nat (Kernel.num_cameras_ k1 - 1) = Some c1 ->
  CameraParameters.cameras (Kernel.camera_params_ k2)
    !! Z.to_nat (Kernel.num_cameras_ k1 - 1) = Some c2 ->
  Camera.baseline c1 = Camera.baseline c2 ->
  CameraParameters.f (Kernel.camera_params_ k1) = CameraParameters.f (Kernel.camera_params_ k2) ->
  AlgorithmParameters.depthMin (Kernel.algo_params_ k1)
    = AlgorithmParameters.depthMin (Kernel.algo_params_ k2) ->
  AlgorithmParameters.depthMax (Kernel.algo_params_ k1)
    = AlgorithmParameters.depthMax (Kernel.algo_params_ k2) ->
  exists k1' k2',
    new_frame_info k1 = Done tt k1'
    /\ new_frame_info k2 = Done tt k2'
    /\ AlgorithmParameters.min_disparity (Kernel.algo_params_ k1') =
       disparityDepthConversion (CameraParameters.f (Kernel.camera_params_ k1))
         (Camera.baseline c1) (AlgorithmParameters.depthMax (Kernel.algo_params_ k1))
    /\ AlgorithmParameters.max_disparity (Kernel.algo_params_ k1') =
       disparityDepthConversion (CameraParameters.f (Kernel.camera_params_ k1))
         (Camera.baseline c1) (AlgorithmParameters.depthMin (Kernel.algo_params_ k1))
    /\ AlgorithmParameters.min_disparity (Kernel.algo_params_ k2')
       = AlgorithmParameters.min_disparity (Kernel.algo_params_ k1')
    /\ AlgorithmParameters.max_disparity (Kernel.algo_params_ k2')
       = AlgorithmParameters.max_disparity (Kernel.algo_params_ k1').
Proof.
  intros Hk1 Hk2 Hn Hn2 Hc1 Hc2 Hb Hf Hdmin Hdmax.
  exists (frame_info_planned k1), (frame_info_planned k2).
  destruct (disparity_from_last_camera k1 c1 Hk1) as [Hmin1 Hmax1]; [lia | exact Hc1 |].
  destruct (disparity_from_last_camera k2 c2 Hk2) as [Hmin2 Hmax2];
    [lia | rewrite Hn2; exact Hc2 |].
  split; [apply new_frame_info_Done; exact Hk1|].
  split; [apply new_frame_info_Done; exact Hk2|].
  split; [exact Hmin1|]. split; [exact Hmax1|].
  rewrite Hmin1, Hmax1, Hmin2, Hmax2, Hb, Hf, Hdmin, Hdmax. split; reflexivity.
Qed.

(** C8. Whenever the frame-geometry planner runs for resolution
    (width, height), the results buffer is resized to exactly
    width * height elements and both strides [s] and [l] are set to width. *)
Theorem planner_resizes_results_buffer (k : Kernel.t) (width height : Z) :
  plannable k = true ->
  Kernel.frame_info_ k = FrameInfo.mk width height ->
  0 <= width -> 0 <= height -> width * height < 2 ^ 31 ->
  exists k',
    new_frame_info k = Done tt k'
    /\ LineState.elements (GlobalState.lines (Kernel.state_ k')) = width * height
    /\ LineState.n (GlobalState.lines (Kernel.state_ k')) = width * height
    /\ LineState.s (GlobalState.lines (Kernel.state_ k')) = width
    /\ LineState.l (GlobalState.lines (Kernel.state_ k')) = width
    /\ last (Kernel.calls k') = Some (ResizeLines (width * height)).
Proof.
  intros Hk Hfi Hw Hh Hsize. exists (frame_info_planned k).
  split; [apply new_frame_info_Done; exact Hk|].
  unfold frame_info_planned, geometry_recorded. cbn. rewrite Hfi. cbn.
  unfold MachInt.mul_i32. rewrite wrap_i32_small by nia.
  rewrite last_snoc, (Z.mul_comm height width). repeat split; reflexivity.
Qed.

(** C4. For every valid rig, after the frame-geometry planner runs, the
    viewSelectionSubset is non-empty and every index it contains lies in
    [0, numCameras); the solver's copy of the subset holds the same
    indices. *)
Theorem planner_selects_valid_views (k : Kernel.t) :
  valid_rig k = true ->
  exists k',
    new_frame_info k = Done tt k'
    /\ CameraParameters.viewSelectionSubset (Kernel.camera_params_ k') <> []
    /\ Forall (fun i => 0 <= i < Kernel.num_cameras_ k')
         (CameraParameters.viewSelectionSubset (Kernel.camera_params_ k'))
    /\ take (length (CameraParameters.viewSelectionSubset (Kernel.camera_params_ k')))
         (CameraParameters_cu.viewSelectionSubset (GlobalState.cameras (Kernel.state_ k')))
       = CameraParameters.viewSelectionSubset (Kernel.camera_params_ k')
    /\ CameraParameters_cu.viewSelectionSubsetNumber (GlobalState.cameras (Kernel.state_ k'))
       = Z.of_nat (length (CameraParameters.viewSelectionSubset (Kernel.camera_params_ k'))).
Proof.
  intros Hvalid. pose proof (valid_rig_plannable k Hvalid) as Hk.
  exists (frame_info_planned k).
  split; [apply new_frame_info_Done; exact Hk|].
  apply plannable_spec in Hk as (_ & _ & Hpos & Hfit & _).
  assert (Hsub : CameraParameters.viewSelectionSubset
                   (Kernel.camera_params_ (frame_info_planned k)) = selected_views k)
    by reflexivity.
  assert (Hnum : Kernel.num_cameras_ (frame_info_planned k) = Kernel.num_cameras_ k)
    by reflexivity.
  rewrite Hsub, Hnum.
  assert (Hcount : Z.of_nat (length (CameraParameters.cameras (Kernel.camera_params_ k)))
                   = Kernel.num_cameras_ k).
  { unfold valid_rig in Hvalid. rewrite !andb_true_iff in Hvalid.
    apply Z.eqb_eq. tauto. }
  split; [|split; [|split]].
  - intros Hnil. rewrite Hnil in Hpos. simpl in Hpos. lia.
  - apply Forall_forall. intros i Hi.
    apply selected_views_range in Hi. lia.
  - change (CameraParameters_cu.viewSelectionSubset
              (GlobalState.cameras (Kernel.state_ (frame_info_planned k))))
      with (take (length (selected_views k)) (selected_views k)
              ++ drop (length (selected_views k))
                   (CameraParameters_cu.viewSelectionSubset
                      (GlobalState.cameras (Kernel.state_ k)))).
    rewrite firstn_all. apply take_app_length.
  - reflexivity.
Qed.



Lemma planned_cameras (k : Kernel.t) :
  CameraParameters.cameras (Kernel.camera_params_ (frame_info_planned k)) =
  (with_depth_bounds (Kernel.algo_params_ k)
     <$> take (Z.to_nat (Kernel.num_cameras_ k))
           (CameraParameters.cameras (Kernel.camera_params_ k)))
    ++ drop (Z.to_nat (Kernel.num_cameras_ k))
         (CameraParameters.cameras (Kernel.camera_params_ k)).
Proof. reflexivity. Qed.




Lemma planned_cameras_cu (k : Kernel.t) :
  CameraParameters_cu.cameras (GlobalState.cameras (Kernel.state_ (frame_info_planned k))) =
  (with_depth_bounds_cu (Kernel.algo_params_ k)
     <$> take (Z.to_nat (Kernel.num_cameras_ k))
           (CameraParameters_cu.cameras (GlobalState.cameras (Kernel.state_ k))))
    ++ drop (Z.to_nat (Kernel.num_cameras_ k))
         (CameraParameters_cu.cameras (GlobalState.cameras (Kernel.state_ k))).
Proof. reflexivity. Qed.

Lemma planned_views_cu (k : Kernel.t) :
  CameraParameters_cu.viewSelectionSubset
    (GlobalState.cameras (Kernel.state_ (frame_info_planned k))) =
  take (length (selected_views k)) (selected_views k)
    ++ drop (length (selected_views k))
         (CameraParameters_cu.viewSelectionSubset (GlobalState.cameras (Kernel.state_ k))).
Proof. reflexivity. Qed.


Lemma planned_camera_params (k : Kernel.t) :
  Kernel.camera_params_ (frame_info_planned k) =
  CameraParameters.mk
    ((with_depth_bounds (Kernel.algo_params_ k)
        <$> take (Z.to_nat (Kernel.num_cameras_ k))
              (CameraParameters.cameras (Kernel.camera_params_ k)))
       ++ drop (Z.to_nat (Kernel.num_cameras_ k))
            (CameraParameters.cameras (Kernel.camera_params_ k)))
    (CameraParameters.f (Kernel.camera_params_ k))
    (selected_views k).
Proof. reflexivity. Qed.

Lemma planned_state (k : Kernel.t) :
  Kernel.state_ (frame_info_planned k) =
  GlobalState.mk _
    (CameraParameters_cu.mk
       ((with_depth_bounds_cu (Kernel.algo_params_ k)
           <$> take (Z.to_nat (Kernel.num_cameras_ k))
                 (CameraParameters_cu.cameras (GlobalState.cameras (Kernel.state_ k))))
          ++ drop (Z.to_nat (Kernel.num_cameras_ k))
               (CameraParameters_cu.cameras (GlobalState.cameras (Kernel.state_ k))))
       (take (length (selected_views k)) (selected_views k)
          ++ drop (length (selected_views k))
               (CameraParameters_cu.viewSelectionSubset
                  (GlobalState.cameras (Kernel.state_ k))))
       (Z.of_nat (length (selected_views k)))
       (FrameInfo.width (Kernel.frame_info_ k))
       (FrameInfo.height (Kernel.frame_info_ k)))
    true
    (LineState.mk _
       (MachInt.mul_i32 (FrameInfo.height (Kernel.frame_info_ k))
          (FrameInfo.width (Kernel.frame_info_ k)))
       (FrameInfo.width (Kernel.frame_info_ k))
       (FrameInfo.width (Kernel.frame_info_ k))
       (MachInt.mul_i32 (FrameInfo.height (Kernel.frame_info_ k))
          (FrameInfo.width (Kernel.frame_info_ k)))
       (resized (LineState.norm4 (GlobalState.lines (Kernel.state_ k)))
          (MachInt.mul_i32 (FrameInfo.height (Kernel.frame_info_ k))
             (FrameInfo.width (Kernel.frame_info_ k)))))
    (GlobalState.textures (Kernel.state_ k)).
Proof. reflexivity. Qed.










End Properties.

(** ** Properties of the executor *)
Section ExecutorProperties.
Context `{ext : Collaborators}.

Lemma preserves_ret {A : Type} (I : Kernel.t -> Prop) (a : A) : preserves I (mret a).
Proof. intros k Hk. exact Hk. Qed.

Lemma preserves_bind {A B : Type} (I : Kernel.t -> Prop) (m : M A) (f : A -> M B) :
  preserves I m -> (forall a, preserves I (f a)) -> preserves I (m ≫= f).
Proof.
  intros Hm Hf k Hk. unfold mbind, M_bind.
  specialize (Hm k Hk). destruct (m k) as [a k'| k' |]; try exact Hm.
  apply Hf. exact Hm.
Qed.

Lemma preserves_gets {A : Type} (I : Kernel.t -> Prop) (proj : Kernel.t -> A) :
  preserves I (gets proj).
Proof. intros k Hk. exact Hk. Qed.

Lemma preserves_modify (I : Kernel.t -> Prop) (upd : Kernel.t -> Kernel.t) :
  (forall k, I k -> I (upd k)) -> preserves I (modify upd).
Proof. intros Hupd k Hk. apply Hupd. exact Hk. Qed.

Lemma preserves_assert (I : Kernel.t -> Prop) (cond : bool) : preserves I (assert cond).
Proof. intros k Hk. unfold assert. destruct cond; exact Hk. Qed.

Lemma preserves_index {A : Type} (I : Kernel.t -> Prop) (v : list A) (i : Z) :
  preserves I (index v i).
Proof.
  intros k Hk. unfold index.
  destruct (i <? 0); [exact Logic.I|]. destruct (v !! Z.to_nat i); [exact Hk | exact Logic.I].
Qed.

Lemma preserves_for_loop {A : Type} (I : Kernel.t -> Prop) (body : Z -> A -> M A)
    (count : nat) (i : Z) (a : A) :
  (forall j b, preserves I (body j b)) -> preserves I (for_loop count i body a).
Proof.
  intros Hbody. revert i a. induction count as [|count IH]; intros i a.
  - apply preserves_ret.
  - simpl. apply preserves_bind; [apply Hbody | intros a'; apply IH].
Qed.

Lemma bindings_app (l1 l2 : list gpu_call) : bindings (l1 ++ l2) = bindings l1 + bindings l2.
Proof.
  induction l1 as [|c l1 IH]; [reflexivity|].
  destruct c; simpl; rewrite IH; lia.
Qed.

Lemma releases_app (l1 l2 : list gpu_call) : releases (l1 ++ l2) = releases l1 + releases l2.
Proof.
  induction l1 as [|c l1 IH]; [reflexivity|].
  destruct c; simpl; rewrite IH; lia.
Qed.

(** Steps that keep the call record, or add calls other than texture
    bindings and releases, keep the number of open textures. *)
Lemma preserves_modify_calls (c : Z) (upd : Kernel.t -> Kernel.t) :
  (forall k, bindings (Kernel.calls (upd k)) = bindings (Kernel.calls k)
             /\ releases (Kernel.calls (upd k)) = releases (Kernel.calls k)) ->
  preserves (fun k => open_textures k = c) (modify upd).
Proof.
  intros Hupd. apply preserves_modify. intros k Hk.
  unfold open_textures in *. destruct (Hupd k) as [-> ->]. exact Hk.
Qed.

Ltac same_calls :=
  let k := fresh "k" in
  intros k; cbn; rewrite ?bindings_app, ?releases_app; cbn; split; lia.

Ltac keeps_open_textures :=
  repeat (cbv beta;
    lazymatch goal with
    | |- preserves _ (mbind _ _) => apply preserves_bind; [|intros]
    | |- preserves _ (mret _) => apply preserves_ret
    | |- preserves _ (gets _) => apply preserves_gets
    | |- preserves _ (assert _) => apply preserves_assert
    | |- preserves _ (index _ _) => apply preserves_index
    | |- preserves _ (for_loop _ _ _ _) => apply preserves_for_loop; intros
    | |- preserves _ (modify _) => apply preserves_modify_calls; same_calls
    end).

Lemma plan_camera_open_textures (c : Z) (i : Z) :
  preserves (fun k => open_textures k = c) (plan_camera i).
Proof.
  unfold plan_camera, assign_camera, assign_camera_cu, modify_algo_params,
    modify_camera_params, modify_state_cameras, modify_state.
  keeps_open_textures.
Qed.

Lemma copy_view_open_textures (c : Z) (i : Z) :
  preserves (fun k => open_textures k = c) (copy_view i).
Proof.
  unfold copy_view, modify_state_cameras, modify_state.
  keeps_open_textures.
Qed.

Lemma set_device_open_textures (c : Z) :
  preserves (fun k => open_textures k = c) set_device.
Proof.
  intros k Hk. unfold set_device, open_textures in *. cbn.
  rewrite bindings_app, releases_app. cbn. lia.
Qed.

Lemma new_frame_info_open_textures (c : Z) :
  preserves (fun k => open_textures k = c) new_frame_info.
Proof.
  unfold new_frame_info, for_i32, modify_lines, modify_algo_params,
    modify_state_cameras, modify_state.
  repeat (cbv beta;
    lazymatch goal with
    | |- preserves _ set_device => apply set_device_open_textures
    | |- preserves _ (plan_camera _) => apply plan_camera_open_textures
    | |- preserves _ (copy_view _) => apply copy_view_open_textures
    | |- _ => progress keeps_open_textures
    end).
Qed.

Lemma preprocess_camera_open_textures (c : Z) (input_columns : list RowList.t)
    (width height i j : Z) (images : list Image) :
  preserves (fun k => open_textures k = c)
    (preprocess_camera input_columns width height i j images).
Proof. unfold preprocess_camera. keeps_open_textures. Qed.

(** One frame: the binding of TextureBound is matched by the release of
    Released, and the assertions of preprocessing come before the binding. *)
Lemma execute_frame_open_textures (c : Z) (input_columns : list RowList.t)
    (width height output_size : Z) (output_buffer : Block.t) (i : Z)
    (locals : list Image * list RowList.t) :
  preserves (fun k => open_textures k = c)
    (execute_frame input_columns width height output_size output_buffer i locals).
Proof.
  unfold execute_frame.
  apply preserves_bind; [apply preserves_gets|]. intros num_cameras.
  apply preserves_bind.
  { unfold for_i32. apply preserves_for_loop. intros.
    apply preprocess_camera_open_textures. }
  intros images k Hk.
  unfold bind_textures, run_solver, copy_result, INSERT_ROW, release_textures,
    modify_state, modify, gets, index.
  unfold mbind, M_bind, mret, M_ret. cbn.
  destruct (runcuda _ _) as [g ap]. cbn.
  destruct (locals.2 !! _) as [column|]; cbn; [|exact Logic.I].
  unfold open_textures in *. cbn.
  rewrite !bindings_app, !releases_app. cbn. lia.
Qed.

Lemma check_frame_info_open_textures (c : Z) (frame_info : RowList.t) :
  preserves (fun k => open_textures k = c) (check_frame_info frame_info).
Proof.
  unfold check_frame_info.
  apply preserves_bind; [apply preserves_gets|]. intros planned.
  destruct (_ && _); [apply preserves_ret|].
  apply preserves_bind; [|intros; apply new_frame_info_open_textures].
  apply preserves_modify. intros k Hk. exact Hk.
Qed.

Lemma execute_open_textures (c : Z) (input_columns output_columns : list RowList.t) :
  preserves (fun k => open_textures k = c) (execute input_columns output_columns).
Proof.
  unfold execute, for_i32.
  repeat (cbv beta;
    lazymatch goal with
    | |- preserves _ set_device => apply set_device_open_textures
    | |- preserves _ (check_frame_info _) => apply check_frame_info_open_textures
    | |- preserves _ (execute_frame _ _ _ _ _ _ _) => apply execute_frame_open_textures
    | |- _ => progress keeps_open_textures
    end).
Qed.

(** C6. For every batch, on every exit path of [execute] (its return, or a
    failed size assertion in the preprocessing of some frame), the number of
    texture-array releases performed equals the number of texture-array
    bindings performed, whatever the solver and the copy of the result did:
    no texture slot stays bound across frames. *)
Theorem texture_releases_match_bindings (input_columns output_columns : list RowList.t)
    (k k' : Kernel.t) :
  exit_state (execute input_columns output_columns k) = Some k' ->
  bindings (Kernel.calls k') - bindings (Kernel.calls k)
  = releases (Kernel.calls k') - releases (Kernel.calls k).
Proof.
  intros Hexit.
  pose proof (execute_open_textures (open_textures k) input_columns output_columns k
                eq_refl) as Hinv.
  destruct (execute input_columns output_columns k) as [outs k''|k''|];
    simpl in Hexit; try discriminate;
    injection Hexit as ->; unfold open_textures in Hinv; lia.
Qed.


(** *** The loops of [execute] on a well-formed batch *)

Lemma camera_row_Some (input_columns : list RowList.t) (i c : nat) (r : Row.t) :
  camera_row input_columns i c = Some r ->
  exists column,
    input_columns !! (2 * c)%nat = Some column /\ RowList.rows column !! i = Some r.
Proof. unfold camera_row. intros Hr. apply bind_Some in Hr. exact Hr. Qed.

Lemma preprocess_camera_run (input_columns : list RowList.t) (width height : Z)
    (i c : nat) (r : Row.t) (images : list Image) (k : Kernel.t) :
  camera_row input_columns i c = Some r ->
  Z.of_nat c * 2 < 2 ^ 31 ->
  preprocess_camera input_columns width height (Z.of_nat i) (Z.of_nat c) images k =
  if Row.size r =? expected_input_size width height
  then Done (<[c := grayscale (Kernel.frame_info_ k) r]> images) k
  else Abort k.
Proof.
  intros Hr Hc. apply camera_row_Some in Hr as (column & Hcol & Hrow).
  unfold preprocess_camera, MachInt.mul_i32.
  rewrite wrap_i32_small by lia.
  replace (Z.of_nat c * 2) with (Z.of_nat (2 * c)) by lia.
  unfold mbind, M_bind.
  rewrite (index_lookup _ _ _ _ Hcol), (index_lookup _ _ _ _ Hrow).
  unfold assert, gets, mret, M_ret.
  destruct (Row.size r =? expected_input_size width height); [|reflexivity].
  rewrite Nat2Z.id. reflexivity.
Qed.

Lemma preprocess_loop (input_columns : list RowList.t) (width height : Z) (i : nat)
    (k : Kernel.t) (rs : list Row.t) :
  forall (c0 : nat) (converted pending : list Image),
    Forall2 (fun c r => camera_row input_columns i c = Some r) (seq c0 (length rs)) rs ->
    length converted = c0 ->
    length pending = length rs ->
    Z.of_nat (c0 + length rs) * 2 < 2 ^ 31 ->
    for_loop (length rs) (Z.of_nat c0)
      (preprocess_camera input_columns width height (Z.of_nat i))
      (converted ++ pending) k =
    if sizes_match width height rs
    then Done (converted ++ (grayscale (Kernel.frame_info_ k) <$> rs)) k
    else Abort k.
Proof.
  induction rs as [|r rs IH]; intros c0 converted pending Hrows Hconv Hpend Hsmall.
  - destruct pending; [|discriminate]. reflexivity.
  - destruct pending as [|p pending]; [discriminate|].
    simpl in Hrows. apply Forall2_cons in Hrows as [Hr Hrows].
    simpl length. simpl for_loop. unfold mbind, M_bind.
    rewrite (preprocess_camera_run _ _ _ _ _ r) by (exact Hr || (simpl in Hsmall; lia)).
    simpl sizes_match.
    destruct (Row.size r =? expected_input_size width height); [|reflexivity].
    rewrite insert_app_r_alt by lia.
    rewrite Hconv, Nat.sub_diag. simpl insert.
    rewrite (cons_middle _ converted pending), app_assoc.
    replace (Z.of_nat c0 + 1) with (Z.of_nat (S c0)) by lia.
    rewrite (IH (S c0)).
    + simpl. rewrite <- app_assoc. reflexivity.
    + exact Hrows.
    + rewrite length_app. simpl. lia.
    + simpl in Hpend. lia.
    + simpl in Hsmall. lia.
Qed.


Lemma frame_set_length (input_columns : list RowList.t) (n i : nat) (rs : list Row.t) :
  frame_set input_columns n i = Some rs -> length rs = n.
Proof.
  unfold frame_set. intros Hrs. apply length_mapM in Hrs.
  rewrite length_seq in Hrs. lia.
Qed.

(** A frame whose rows are all present: the size assertions, then the four
    remaining states. *)
Lemma execute_frame_run (input_columns : list RowList.t) (width height output_size : Z)
    (output_buffer : Block.t) (i n : nat) (rs : list Row.t) (images : list Image)
    (out0 : RowList.t) (rest : list RowList.t) (k : Kernel.t) :
  frame_set input_columns n i = Some rs ->
  Kernel.num_cameras_ k = Z.of_nat n ->
  length images = n ->
  Z.of_nat n * 2 < 2 ^ 31 ->
  execute_frame input_columns width height output_size output_buffer (Z.of_nat i)
    (images, out0 :: rest) k =
  (assert (sizes_match width height rs);;
   result ← solve_frame_set output_size rs;
   mret (grayscale (Kernel.frame_info_ k) <$> rs,
         RowList.push_back
           (Row.mk _
              (Pointer.mk _ output_buffer (row_offset output_size (Z.of_nat i)) result)
              (MachInt.to_size_t output_size))
           out0 :: rest)) k.
Proof.
  intros Hrs Hn Himages Hsmall.
  pose proof (frame_set_length _ _ _ _ Hrs) as Hlen.
  unfold frame_set in Hrs. apply mapM_Some in Hrs.
  pose proof (preprocess_loop input_columns width height i k rs 0 [] images) as Hloop.
  rewrite Hlen in Hloop. simpl in Hloop.
  specialize (Hloop Hrs eq_refl Himages Hsmall).
  change (Z.of_nat 0) with 0 in Hloop.
  unfold execute_frame, for_i32.
  unfold mbind at 1, M_bind at 1. unfold gets at 1.
  rewrite Hn, Nat2Z.id. unfold mbind at 1, M_bind at 1.
  simpl fst. rewrite Hloop.
  unfold mbind at 4, M_bind at 4. unfold assert.
  destruct (sizes_match width height rs); [|reflexivity].
  unfold solve_frame_set, bind_textures, run_solver, copy_result, INSERT_ROW,
    release_textures, modify_state, modify, gets, index.
  unfold mbind, M_bind, mret, M_ret. cbn.
  destruct (runcuda _ _) as [g ap]. reflexivity.
Qed.

Lemma solve_frame_set_Done (output_size : Z) (rs : list Row.t) (k : Kernel.t) :
  exists result k',
    solve_frame_set output_size rs k = Done result k'
    /\ Kernel.num_cameras_ k' = Kernel.num_cameras_ k
    /\ Kernel.frame_info_ k' = Kernel.frame_info_ k.
Proof.
  unfold solve_frame_set, bind_textures, run_solver, copy_result,
    release_textures, modify_state, modify, gets.
  unfold mbind, M_bind, mret, M_ret. cbn.
  destruct (runcuda _ _) as [g ap]. cbn.
  eexists _, _. repeat split; reflexivity.
Qed.


Lemma bind_run {A B : Type} (m : M A) (f : A -> M B) (k : Kernel.t) :
  (m ≫= f) k =
  match m k with
  | Done a k' => f a k'
  | Abort k' => Abort k'
  | Undefined => Undefined
  end.
Proof. reflexivity. Qed.

Lemma push_rows_nil (out0 : RowList.t) : RowList.mk _ (RowList.rows out0 ++ []) = out0.
Proof. destruct out0. simpl. rewrite app_nil_r. reflexivity. Qed.

(** The per-frame loop on a batch whose rows are all present is
    [checked_batch], its results placed in the rows of the output block; it
    never leaves defined behaviour. *)
Lemma frames_loop (input_columns : list RowList.t) (width height output_size : Z)
    (output_buffer : Block.t) (n : nat) (batch : list (list Row.t)) :
  forall (i0 : nat) (images : list Image) (out0 : RowList.t) (rest : list RowList.t)
         (k : Kernel.t),
    Forall2 (fun i rs => frame_set input_columns n i = Some rs)
      (seq i0 (length batch)) batch ->
    Kernel.num_cameras_ k = Z.of_nat n ->
    length images = n ->
    Z.of_nat n * 2 < 2 ^ 31 ->
    match checked_batch width height output_size batch k with
    | Done results k' =>
        exists images',
          for_loop (length batch) (Z.of_nat i0)
            (execute_frame input_columns width height output_size output_buffer)
            (images, out0 :: rest) k
          = Done (images',
                  RowList.mk _
                    (RowList.rows out0
                       ++ block_rows output_buffer output_size (Z.of_nat i0) results)
                  :: rest) k'
    | Abort k' =>
        for_loop (length batch) (Z.of_nat i0)
          (execute_frame input_columns width height output_size output_buffer)
          (images, out0 :: rest) k
        = Abort k'
    | Undefined => False
    end.
Proof.
  induction batch as [|rs batch IH]; intros i0 images out0 rest k Hsets Hn Himages Hsmall.
  - simpl. exists images. rewrite push_rows_nil. reflexivity.
  - simpl in Hsets. apply Forall2_cons in Hsets as [Hrs Hsets].
    simpl length. simpl for_loop. simpl checked_batch.
    rewrite (bind_run (execute_frame _ _ _ _ _ _ _)).
    rewrite (execute_frame_run _ _ _ _ _ _ n rs) by assumption.
    unfold mbind, M_bind, assert.
    destruct (sizes_match width height rs); [|reflexivity].
    destruct (solve_frame_set_Done output_size rs k) as (r & k1 & -> & Hn1 & Hfi1).
    unfold mret, M_ret.
    replace (Z.of_nat i0 + 1) with (Z.of_nat (S i0)) by lia.
    specialize (IH (S i0) (grayscale (Kernel.frame_info_ k) <$> rs)
                  (RowList.push_back
                     (Row.mk _
                        (Pointer.mk _ output_buffer
                           (row_offset output_size (Z.of_nat i0)) r)
                        (MachInt.to_size_t output_size)) out0)
                  rest k1 Hsets).
    rewrite Hn1 in IH. specialize (IH Hn).
    rewrite length_fmap, (frame_set_length _ _ _ _ Hrs) in IH.
    specialize (IH eq_refl Hsmall).
    destruct (checked_batch width height output_size batch k1) as [results k2|k2|].
    + destruct IH as [images' IH]. exists images'. rewrite IH.
      simpl. rewrite <- app_assoc.
      replace (Z.of_nat i0 + 1) with (Z.of_nat (S i0)) by lia. reflexivity.
    + exact IH.
    + exact IH.
Qed.

Lemma checked_batch_matching (width height output_size : Z) (batch : list (list Row.t))
    (k : Kernel.t) :
  Forall (fun rs => sizes_match width height rs = true) batch ->
  checked_batch width height output_size batch k = solve_batch output_size batch k.
Proof.
  revert k. induction batch as [|rs batch IH]; intros k Hall; [reflexivity|].
  apply Forall_cons in Hall as [Hrs Hall].
  simpl. rewrite Hrs. unfold mbind, M_bind, assert.
  destruct (solve_frame_set output_size rs k) as [r k1|k1|]; try reflexivity.
  rewrite IH by exact Hall. reflexivity.
Qed.

Lemma checked_batch_mismatch (width height output_size : Z) (batch : list (list Row.t))
    (k : Kernel.t) :
  Exists (fun rs => sizes_match width height rs = false) batch ->
  exists k', checked_batch width height output_size batch k = Abort k'.
Proof.
  revert k. induction batch as [|rs batch IH]; intros k Hbad; [inversion Hbad|].
  simpl. unfold mbind at 1, M_bind at 1, assert.
  destruct (sizes_match width height rs) eqn:Hrs; [|eauto].
  apply Exists_cons in Hbad as [Hbad|Hbad]; [congruence|].
  unfold mbind, M_bind.
  destruct (solve_frame_set_Done output_size rs k) as (r & k1 & -> & _).
  destruct (IH k1 Hbad) as [k' ->]. eauto.
Qed.


Lemma frame_sets_length (input_columns : list RowList.t) (n count : nat)
    (batch : list (list Row.t)) :
  frame_sets input_columns n count = Some batch -> length batch = count.
Proof.
  unfold frame_sets. intros Hb. apply length_mapM in Hb.
  rewrite length_seq in Hb. lia.
Qed.

(** [execute] on a batch whose rows are all present. *)
Lemma execute_run (input_columns rest : list RowList.t) (out0 info column0 : RowList.t)
    (k k1 : Kernel.t) (width height : Z) (n : nat) (batch : list (list Row.t)) :
  input_columns !! 1%nat = Some info ->
  input_columns !! 0%nat = Some column0 ->
  check_frame_info info (Kernel.log (SetDevice (id (Kernel.device_ k))) k) = Done tt k1 ->
  Kernel.frame_info_ k1 = FrameInfo.mk width height ->
  Kernel.num_cameras_ k1 = Z.of_nat n ->
  Z.of_nat n * 2 < 2 ^ 31 ->
  Z.of_nat (length (RowList.rows column0)) < 2 ^ 31 ->
  frame_sets input_columns n (length (RowList.rows column0)) = Some batch ->
  execute input_columns (out0 :: rest) k =
  match checked_batch width height (output_size_of width height) batch k1 with
  | Done results k2 =>
      Done (RowList.mk _
              (RowList.rows out0
                 ++ block_rows
                      (new_block_buffer (Kernel.device_ k1)
                         (MachInt.mul_i32 (output_size_of width height)
                            (Z.of_nat (length (RowList.rows column0))))
                         (Z.of_nat (length (RowList.rows column0))))
                      (output_size_of width height) 0 results)
            :: rest) k2
  | Abort k2 => Abort k2
  | Undefined => Undefined
  end.
Proof.
  intros Hinfo Hcol0 Hcheck Hfi Hn Hsmall Hcount Hbatch.
  pose proof (frame_sets_length _ _ _ _ Hbatch) as Hlen.
  unfold frame_sets in Hbatch. apply mapM_Some in Hbatch.
  unfold execute. rewrite (bind_run set_device). unfold set_device at 1.
  rewrite (bind_run (index _ _)).
  change 1 with (Z.of_nat 1) at 1. rewrite (index_lookup _ _ _ _ Hinfo).
  rewrite (bind_run (check_frame_info _)), Hcheck.
  rewrite (bind_run (gets _)). unfold gets at 1.
  rewrite (bind_run (gets _)). unfold gets at 1.
  rewrite (bind_run (index _ _)).
  change 0 with (Z.of_nat 0) at 1. rewrite (index_lookup _ _ _ _ Hcol0).
  rewrite (bind_run (gets _)). unfold gets at 1.
  rewrite (bind_run (gets _)). unfold gets at 1.
  rewrite Hfi. simpl FrameInfo.width. simpl FrameInfo.height.
  rewrite wrap_i32_small by lia.
  unfold for_i32. rewrite Hn, !Nat2Z.id, <- Hlen.
  pose proof (frames_loop input_columns width height (output_size_of width height)
                (new_block_buffer (Kernel.device_ k1)
                   (MachInt.mul_i32 (output_size_of width height)
                      (Z.of_nat (length batch)))
                   (Z.of_nat (length batch)))
                n batch 0 (replicate n Mat_new) out0 rest k1) as Hloop.
  rewrite Hlen in Hloop at 1.
  specialize (Hloop Hbatch Hn (length_replicate _ _) Hsmall).
  change (Z.of_nat 0) with 0 in Hloop.
  rewrite bind_run.
  destruct (checked_batch width height (output_size_of width height) batch k1)
    as [results k2|k2|].
  - destruct Hloop as [images' ->]. reflexivity.
  - rewrite Hloop. reflexivity.
  - contradiction.
Qed.

Lemma expected_input_size_small (width height : Z) :
  0 <= width -> 0 <= height -> width * height * 3 < 2 ^ 31 ->
  expected_input_size width height = width * height * 3.
Proof.
  intros Hw Hh Hsize. unfold expected_input_size, MachInt.mul_i32.
  rewrite (wrap_i32_small (width * height)) by nia.
  rewrite wrap_i32_small by nia.
  apply to_size_t_small. nia.
Qed.

Lemma output_size_small (width height : Z) :
  0 <= width -> 0 <= height -> width * height * 16 < 2 ^ 31 ->
  output_size_of width height = width * height * 16.
Proof.
  intros Hw Hh Hsize. unfold output_size_of, MachInt.mul_i32, MachInt.sizeof_float4.
  rewrite (wrap_i32_small (width * height)) by nia.
  rewrite (to_size_t_small (width * height)) by nia.
  rewrite to_size_t_small by nia.
  apply wrap_i32_small. nia.
Qed.

Lemma sizes_match_true (width height : Z) (rs : list Row.t) :
  sizes_match width height rs = true
  <-> Forall (fun r => Row.size r = expected_input_size width height) rs.
Proof.
  unfold sizes_match. rewrite forallb_forall, Forall_forall.
  split; intros Hall r Hr.
  - apply Z.eqb_eq, Hall, list_elem_of_In, Hr.
  - apply Z.eqb_eq, Hall, list_elem_of_In, Hr.
Qed.

Lemma sizes_match_false (width height : Z) (rs : list Row.t) :
  sizes_match width height rs = false
  <-> Exists (fun r => Row.size r <> expected_input_size width height) rs.
Proof.
  rewrite Exists_Forall_neg by (intros r; destruct (decide (Row.size r = expected_input_size width height)); tauto).
  rewrite <- sizes_match_true. symmetry. apply not_true_iff_false.
Qed.




(** C7. During preprocessing every input row of every camera channel is
    checked to have byte size width * height * 3: [execute] returns only if
    all of them have it, and a mismatch stops the run on the failed assertion
    (the call does not return and nothing is appended after it). *)
Theorem size_mismatch_is_fatal (input_columns rest : list RowList.t)
    (out0 info column0 : RowList.t) (k k1 : Kernel.t) (width height : Z) (n : nat)
    (batch : list (list Row.t)) :
  input_columns !! 1%nat = Some info ->
  input_columns !! 0%nat = Some column0 ->
  check_frame_info info (Kernel.log (SetDevice (id (Kernel.device_ k))) k) = Done tt k1 ->
  Kernel.frame_info_ k1 = FrameInfo.mk width height ->
  0 <= width -> 0 <= height -> width * height * 3 < 2 ^ 31 ->
  Kernel.num_cameras_ k1 = Z.of_nat n ->
  Z.of_nat n * 2 < 2 ^ 31 ->
  Z.of_nat (length (RowList.rows column0)) < 2 ^ 31 ->
  frame_sets input_columns n (length (RowList.rows column0)) = Some batch ->
  (forall outs k2,
     execute input_columns (out0 :: rest) k = Done outs k2 ->
     Forall (Forall (fun r => Row.size r = width * height * 3)) batch)
  /\ (Exists (Exists (fun r => Row.size r <> width * height * 3)) batch ->
      exists k', execute input_columns (out0 :: rest) k = Abort k').
Proof.
  intros Hinfo Hcol0 Hcheck Hfi Hw Hh Hsize Hn Hsmall Hcount Hbatch.
  rewrite (execute_run _ _ _ _ _ _ _ _ _ _ _ Hinfo Hcol0 Hcheck Hfi Hn Hsmall Hcount Hbatch).
  assert (Hbad : Exists (Exists (fun r => Row.size r <> width * height * 3)) batch ->
                 exists k', checked_batch width height (output_size_of width height) batch k1
                            = Abort k').
  { intros Hex. apply checked_batch_mismatch.
    eapply Exists_impl; [exact Hex|]. intros rs Hrs.
    apply sizes_match_false. rewrite expected_input_size_small by assumption. exact Hrs. }
  split.
  - intros outs k2 Hdone.
    destruct (Forall_Exists_dec
                (Forall (fun r : Row.t => Row.size r = width * height * 3))
                (Exists (fun r : Row.t => Row.size r <> width * height * 3))
                (fun rs => Forall_Exists_dec _ _
                   (fun r => match decide (Row.size r = width * height * 3) with
                             | left e => left e
                             | right ne => right ne
                             end) rs)
                batch) as [Hall|Hex]; [exact Hall|].
    destruct (Hbad Hex) as [k' Hk']. rewrite Hk' in Hdone. discriminate.
  - intros Hex. destruct (Hbad Hex) as [k' ->]. eauto.
Qed.

End ExecutorProperties.

(** ** Properties of construction and validation *)
Section ConstructionProperties.
Context `{ext : Collaborators}.

(** The check of line 43 fires in two cases only: no camera and two columns,
    or some cameras and no column. *)
Lemma columns_check_fires_iff (cameras_size : Z) (input_columns : nat) :
  columns_check cameras_size input_columns = true
  <-> (cameras_size = 0 /\ input_columns = 2%nat)
      \/ (cameras_size <> 0 /\ input_columns = 0%nat).
Proof.
  unfold columns_check, MachInt.lnot, MachInt.to_size_t.
  destruct (Z.eqb_spec cameras_size 0) as [->|Hne].
  - change (1 * 2 mod 2 ^ 64) with 2. rewrite Z.eqb_eq. lia.
  - change (0 * 2 mod 2 ^ 64) with 0. rewrite Z.eqb_eq. lia.
Qed.


Lemma construction_parse_failure (config : Config.t) (d : DeviceHandle)
    (ds : list DeviceHandle) :
  Config.devices config = d :: ds ->
  ParseFromArray (Config.args config) = None ->
  exists k,
    GipumaKernel_new config = Done tt k
    /\ Kernel.valid_ k = Result.mk false "GipumaKernel could not parse protobuf args"
    /\ Kernel.calls k = [SetDevice (id d)]
    /\ Kernel.camera_params_ k = CameraParameters_new.
Proof.
  intros Hd Hparse. unfold GipumaKernel_new, GipumaKernel_body. rewrite Hd, Hparse.
  eexists. split; [reflexivity|]. repeat split.
Qed.

Lemma construction_mismatch_detected (config : Config.t) (d : DeviceHandle)
    (ds : list DeviceHandle) (parsed : GipumaArgs.t) :
  Config.devices config = d :: ds ->
  ParseFromArray (Config.args config) = Some parsed ->
  columns_check (GipumaArgs.cameras_size parsed)
    (length (Config.input_columns config)) = true ->
  exists k,
    GipumaKernel_new config = Done tt k
    /\ Kernel.valid_ k =
       Result.mk false
         (mismatch_message (GipumaArgs.cameras_size parsed)
            (length (Config.input_columns config)))
    /\ Kernel.calls k = [SetDevice (id d)]
    /\ Kernel.camera_params_ k = CameraParameters_new.
Proof.
  intros Hd Hparse Hcheck. unfold GipumaKernel_new, GipumaKernel_body.
  rewrite Hd, Hparse.
  unfold set_device, RESULT_ERROR, modify_algo_params, modify, gets.
  unfold mbind, M_bind. cbn. rewrite Hcheck.
  eexists. split; [reflexivity|]. repeat split.
Qed.


End ConstructionProperties.

(** ** Construction of well-formed and of malformed configurations *)
Section Construction.
Context `{ext : Collaborators}.

Lemma read_P_Done (p : list float) (k : Kernel.t) :
  (12 <= length p)%nat -> read_P p k = Done (matrix_3x4 p) k.
Proof.
  intros Hlen.
  do 12 (destruct p as [|? p]; [simpl in Hlen; lia|]).
  vm_compute. reflexivity.
Qed.

Lemma read_P_short (p : list float) (k : Kernel.t) :
  (length p < 12)%nat -> read_P p k = Undefined.
Proof.
  intros Hlen.
  do 12 (destruct p as [|? p]; [vm_compute; reflexivity|]).
  simpl in Hlen. lia.
Qed.

(** X1. The constructor reads a camera's projection matrix row by row from
    the first twelve entries of its flattened form: the three rows have four
    entries each, entry (i, j) is entry 4 * i + j of the flattened matrix, and
    flattening the rows gives those twelve entries back.  A flattened matrix
    with fewer than twelve entries is read out of range. *)
Theorem read_P_row_major (p : list float) (k : Kernel.t) :
  ((12 <= length p)%nat ->
   exists P,
     read_P p k = Done P k
     /\ length P = 3%nat
     /\ Forall (fun row => length row = 4%nat) P
     /\ concat P = take 12 p
     /\ forall i j : nat, (i < 3)%nat -> (j < 4)%nat ->
          P !! i ≫= (fun row => row !! j) = p !! (4 * i + j)%nat)
  /\ ((length p < 12)%nat -> read_P p k = Undefined).
Proof.
  split; [|apply read_P_short].
  intros Hlen. exists (matrix_3x4 p). split; [apply read_P_Done; exact Hlen|].
  do 12 (destruct p as [|? p]; [simpl in Hlen; lia|]).
  split; [reflexivity|]. split; [repeat constructor|]. split; [reflexivity|].
  intros i j Hi Hj.
  destruct i as [|[|[|i]]]; [| | |lia];
    (destruct j as [|[|[|[|j]]]]; [| | | |lia]); reflexivity.
Qed.

Lemma read_cameras_Done (cams : list (list float)) (k : Kernel.t) :
  Forall (fun p => (12 <= length p)%nat) cams ->
  read_cameras cams k =
  Done tt
    (Kernel.set_camera_params_
       (CameraParameters.set_cameras
          (CameraParameters.cameras (Kernel.camera_params_ k)
             ++ (camera_of_matrix <$> cams))
          (Kernel.camera_params_ k))
       k).
Proof.
  revert k. induction cams as [|p cams IH]; intros k Hall.
  - simpl. rewrite app_nil_r.
    destruct k as [dev valid args [cs f sel] ap st n fi calls]. reflexivity.
  - apply Forall_cons in Hall as [Hp Hall].
    simpl read_cameras. unfold mbind, M_bind.
    rewrite (read_P_Done p k Hp).
    unfold modify_camera_params, modify.
    rewrite IH by exact Hall.
    destruct k as [dev valid args [cs f sel] ap st n fi calls]. cbn.
    rewrite <- app_assoc. reflexivity.
Qed.

Lemma read_cameras_short (cams : list (list float)) (k : Kernel.t) :
  Exists (fun p => (length p < 12)%nat) cams -> read_cameras cams k = Undefined.
Proof.
  revert k. induction cams as [|p cams IH]; intros k Hex; [inversion Hex|].
  simpl read_cameras. unfold mbind, M_bind.
  destruct (decide (length p < 12)%nat) as [Hshort|Hlong].
  - rewrite (read_P_short p k Hshort). reflexivity.
  - rewrite (read_P_Done p k) by lia.
    apply Exists_cons in Hex as [Hp|Hex]; [lia|].
    unfold modify_camera_params, modify. apply IH. exact Hex.
Qed.

(** The constructor once the arguments are parsed and the check of line 43
    has let them through. *)
Lemma construction_proceeds (config : Config.t) (d : DeviceHandle)
    (ds : list DeviceHandle) (parsed : GipumaArgs.t) :
  Config.devices config = d :: ds ->
  ParseFromArray (Config.args config) = Some parsed ->
  columns_check (GipumaArgs.cameras_size parsed)
    (length (Config.input_columns config)) = false ->
  GipumaKernel_new config =
  match read_cameras (GipumaArgs.cameras parsed)
          (Kernel.mk _ d (Result.mk true "") parsed CameraParameters_new
             (configured_params parsed) GlobalState_new
             (GipumaArgs.cameras_size parsed) (FrameInfo.mk 0 0) [SetDevice (id d)]) with
  | Done _ k =>
      let rig := getCameraParameters (GlobalState.cameras (Kernel.state_ k))
                   (Kernel.camera_params_ k) in
      Done tt
        (Kernel.set_camera_params_ rig.2
           (Kernel.set_state_
              (GlobalState.set_cameras rig.1 (Kernel.state_ k))
              (Kernel.log BuildRig k)))
  | Abort k => Abort k
  | Undefined => Undefined
  end.
Proof.
  intros Hd Hparse Hcheck. unfold GipumaKernel_new, GipumaKernel_body.
  rewrite Hd, Hparse.
  unfold set_device, modify_algo_params, modify_state_cameras, modify_state,
    modify_camera_params, modify, gets.
  unfold mbind, M_bind. cbn. rewrite Hcheck.
  unfold configured_params.
  destruct (read_cameras _ _) as [[] k| k |]; try reflexivity.
  cbn. destruct (getCameraParameters _ _) as [cu cp]. reflexivity.
Qed.

Lemma well_formed_passes_check (cameras input_columns : nat) :
  input_columns = (2 * cameras)%nat ->
  Z.of_nat cameras < 2 ^ 31 ->
  columns_check (MachInt.wrap_i32 (Z.of_nat cameras)) input_columns = false.
Proof.
  intros Hcols Hsmall. rewrite wrap_i32_small by lia.
  apply not_true_iff_false. intros Hfires.
  unfold columns_check, MachInt.lnot, MachInt.to_size_t in Hfires.
  destruct (Z.eqb_spec (Z.of_nat cameras) 0) as [H0|Hne].
  - change (1 * 2 mod 2 ^ 64) with 2 in Hfires. apply Z.eqb_eq in Hfires. lia.
  - change (0 * 2 mod 2 ^ 64) with 0 in Hfires. apply Z.eqb_eq in Hfires. lia.
Qed.

(** X2. A configuration with two input columns per declared camera and
    twelve matrix entries per camera is constructed as valid: the status is
    success with an empty message, [num_cameras_] and [num_img_processed] are
    the declared camera count, the angle bounds are fixed to 1 and 90 degrees,
    the remaining parameters are copied from the arguments, and the rig is
    built once from one camera per declared camera, in order, each with its
    matrix read row by row.  The device is bound before anything else. *)
Theorem well_formed_configuration_is_constructed (config : Config.t)
    (d : DeviceHandle) (ds : list DeviceHandle) (parsed : GipumaArgs.t) :
  Config.devices config = d :: ds ->
  ParseFromArray (Config.args config) = Some parsed ->
  length (Config.input_columns config) = (2 * length (GipumaArgs.cameras parsed))%nat ->
  Z.of_nat (length (GipumaArgs.cameras parsed)) < 2 ^ 31 ->
  Forall (fun p => (12 <= length p)%nat) (GipumaArgs.cameras parsed) ->
  exists k,
    GipumaKernel_new config = Done tt k
    /\ Kernel.valid_ k = Result.mk true ""
    /\ Kernel.num_cameras_ k = Z.of_nat (length (GipumaArgs.cameras parsed))
    /\ Kernel.algo_params_ k = configured_params parsed
    /\ AlgorithmParameters.num_img_processed (Kernel.algo_params_ k)
       = Z.of_nat (length (GipumaArgs.cameras parsed))
    /\ AlgorithmParameters.min_angle (Kernel.algo_params_ k) = F32.of_Z 1
    /\ AlgorithmParameters.max_angle (Kernel.algo_params_ k) = F32.of_Z 90
    /\ (GlobalState.cameras (Kernel.state_ k), Kernel.camera_params_ k)
       = getCameraParameters (GlobalState.cameras GlobalState_new) (cameras_read parsed)
    /\ Kernel.calls k = [SetDevice (id d); BuildRig].
Proof.
  intros Hd Hparse Hcols Hsmall Hmatrices.
  rewrite (construction_proceeds config d ds parsed Hd Hparse)
    by (rewrite Hcols; apply well_formed_passes_check; [reflexivity | exact Hsmall]).
  rewrite read_cameras_Done by exact Hmatrices.
  eexists. split; [reflexivity|]. cbn.
  unfold GipumaArgs.cameras_size. rewrite wrap_i32_small by lia.
  fold (cameras_read parsed).
  destruct (getCameraParameters _ _) as [cu cp].
  repeat split; unfold configured_params, GipumaArgs.cameras_size;
    rewrite ?wrap_i32_small by lia; reflexivity.
Qed.

(** X3. Construction never stops on an assertion: it returns, or it reads
    out of range (no device, or a camera with fewer than twelve matrix
    entries in arguments that passed the check).  When a camera matrix is
    short and the check lets the arguments through, construction is the
    out-of-range read. *)
Theorem construction_never_aborts (config : Config.t) :
  (forall k, GipumaKernel_new config <> Abort k)
  /\ (forall d ds parsed,
        Config.devices config = d :: ds ->
        ParseFromArray (Config.args config) = Some parsed ->
        columns_check (GipumaArgs.cameras_size parsed)
          (length (Config.input_columns config)) = false ->
        Exists (fun p => (length p < 12)%nat) (GipumaArgs.cameras parsed) ->
        GipumaKernel_new config = Undefined).
Proof.
  split.
  - intros k Habort.
    destruct (Config.devices config) as [|d ds] eqn:Hd.
    { unfold GipumaKernel_new in Habort. rewrite Hd in Habort. discriminate. }
    destruct (ParseFromArray (Config.args config)) as [parsed|] eqn:Hparse.
    + destruct (columns_check (GipumaArgs.cameras_size parsed)
                  (length (Config.input_columns config))) eqn:Hcheck.
      * destruct (construction_mismatch_detected config d ds parsed Hd Hparse Hcheck)
          as (k' & Hk' & _). congruence.
      * rewrite (construction_proceeds config d ds parsed Hd Hparse Hcheck) in Habort.
        destruct (Forall_Exists_dec (fun p : list float => (12 <= length p)%nat)
                    (fun p : list float => (length p < 12)%nat)
                    (fun p => le_lt_dec 12 (length p))
                    (GipumaArgs.cameras parsed)) as [Hall|Hex].
        -- rewrite read_cameras_Done in Habort by exact Hall. discriminate.
        -- rewrite read_cameras_short in Habort by exact Hex. discriminate.
    + destruct (construction_parse_failure config d ds Hd Hparse) as (k' & Hk' & _).
      congruence.
  - intros d ds parsed Hd Hparse Hcheck Hex.
    rewrite (construction_proceeds config d ds parsed Hd Hparse Hcheck).
    rewrite read_cameras_short by exact Hex. reflexivity.
Qed.


(** X16. Which configurations the constructor rejects for their column
    count: with arguments that parse and full camera matrices, the kernel is
    marked invalid exactly when no camera is declared and there are two input
    columns, or some camera is declared and there is no input column.  Every
    other pair of counts, matching or not, is constructed as valid. *)
Theorem constructor_rejects_exactly (config : Config.t) (d : DeviceHandle)
    (ds : list DeviceHandle) (parsed : GipumaArgs.t) :
  Config.devices config = d :: ds ->
  ParseFromArray (Config.args config) = Some parsed ->
  Forall (fun p => (12 <= length p)%nat) (GipumaArgs.cameras parsed) ->
  exists k,
    GipumaKernel_new config = Done tt k
    /\ (Result.success (Kernel.valid_ k) = false
        <-> (GipumaArgs.cameras_size parsed = 0
             /\ length (Config.input_columns config) = 2%nat)
            \/ (GipumaArgs.cameras_size parsed <> 0
                /\ length (Config.input_columns config) = 0%nat)).
Proof.
  intros Hd Hparse Hmatrices.
  destruct (columns_check (GipumaArgs.cameras_size parsed)
              (length (Config.input_columns config))) eqn:Hcheck.
  - destruct (construction_mismatch_detected config d ds parsed Hd Hparse Hcheck)
      as (k & Hk & Hvalid & _).
    exists k. split; [exact Hk|]. rewrite Hvalid. simpl.
    split; [intros _; apply columns_check_fires_iff; exact Hcheck | reflexivity].
  - rewrite (construction_proceeds config d ds parsed Hd Hparse Hcheck).
    rewrite read_cameras_Done by exact Hmatrices.
    eexists. split; [reflexivity|]. cbn.
    split; [discriminate|].
    intros Hfires. apply columns_check_fires_iff in Hfires. congruence.
Qed.

End Construction.

(** ** What the planner writes and what it leaves alone *)
Section Planner.
Context `{ext : Collaborators}.

Lemma lookup_planned {A : Type} (g : A -> A) (l : list A) (n i : nat) :
  (n <= length l)%nat ->
  ((g <$> take n l) ++ drop n l) !! i
  = if decide (i < n)%nat then g <$> l !! i else l !! i.
Proof.
  intros Hn. destruct (decide (i < n)%nat) as [Hlt|Hge].
  - rewrite lookup_app_l by (rewrite length_fmap, length_take; lia).
    rewrite list_lookup_fmap, lookup_take_lt by lia. reflexivity.
  - rewrite lookup_app_r by (rewrite length_fmap, length_take; lia).
    rewrite length_fmap, length_take, lookup_drop. f_equal. lia.
Qed.

(** X5. The planner copies the depth bounds of the algorithm parameters into
    the first [num_cameras_] cameras of the rig and of the solver's rig, and
    changes nothing else in them: projection matrices, baselines, the focal
    length, the number of cameras and the cameras past [num_cameras_] stay as
    they were. *)
Theorem planner_propagates_depth_bounds (k : Kernel.t) :
  plannable k = true ->
  exists k',
    new_frame_info k = Done tt k'
    /\ CameraParameters.f (Kernel.camera_params_ k')
       = CameraParameters.f (Kernel.camera_params_ k)
    /\ (forall i,
          CameraParameters.cameras (Kernel.camera_params_ k') !! i
          = if decide (i < Z.to_nat (Kernel.num_cameras_ k))%nat
            then (fun c =>
                    Camera.mk (Camera.P c) (Camera.baseline c)
                      (AlgorithmParameters.depthMin (Kernel.algo_params_ k))
                      (AlgorithmParameters.depthMax (Kernel.algo_params_ k)))
                 <$> CameraParameters.cameras (Kernel.camera_params_ k) !! i
            else CameraParameters.cameras (Kernel.camera_params_ k) !! i)
    /\ (forall i,
          CameraParameters_cu.cameras (GlobalState.cameras (Kernel.state_ k')) !! i
          = if decide (i < Z.to_nat (Kernel.num_cameras_ k))%nat
            then (fun _ =>
                    Camera_cu.mk
                      (AlgorithmParameters.depthMin (Kernel.algo_params_ k))
                      (AlgorithmParameters.depthMax (Kernel.algo_params_ k)))
                 <$> CameraParameters_cu.cameras (GlobalState.cameras (Kernel.state_ k)) !! i
            else CameraParameters_cu.cameras (GlobalState.cameras (Kernel.state_ k)) !! i).
Proof.
  intros Hk. exists (frame_info_planned k).
  split; [apply new_frame_info_Done; exact Hk|].
  apply plannable_spec in Hk as (Hcams & Hcu & _).
  split; [rewrite planned_camera_params; reflexivity|].
  split; intros i.
  - rewrite planned_cameras, lookup_planned by exact Hcams. reflexivity.
  - rewrite planned_cameras_cu, lookup_planned by exact Hcu. reflexivity.
Qed.

(** X6. The planner records the frame geometry for the solver: the solver's
    rig and the algorithm parameters get width columns and height rows, the
    solver's parameter pointer is set, the number of selected views is stored,
    and the solver's view array keeps its length and its entries past the
    selected views. *)
Theorem planner_records_geometry (k : Kernel.t) (width height : Z) :
  plannable k = true ->
  Kernel.frame_info_ k = FrameInfo.mk width height ->
  exists k',
    new_frame_info k = Done tt k'
    /\ CameraParameters_cu.cols (GlobalState.cameras (Kernel.state_ k')) = width
    /\ CameraParameters_cu.rows (GlobalState.cameras (Kernel.state_ k')) = height
    /\ AlgorithmParameters.cols (Kernel.algo_params_ k') = width
    /\ AlgorithmParameters.rows (Kernel.algo_params_ k') = height
    /\ GlobalState.params_set (Kernel.state_ k') = true
    /\ CameraParameters_cu.viewSelectionSubsetNumber (GlobalState.cameras (Kernel.state_ k'))
       = Z.of_nat (length (selected_views k))
    /\ length (CameraParameters_cu.viewSelectionSubset (GlobalState.cameras (Kernel.state_ k')))
       = length (CameraParameters_cu.viewSelectionSubset (GlobalState.cameras (Kernel.state_ k)))
    /\ drop (length (selected_views k))
         (CameraParameters_cu.viewSelectionSubset (GlobalState.cameras (Kernel.state_ k')))
       = drop (length (selected_views k))
           (CameraParameters_cu.viewSelectionSubset (GlobalState.cameras (Kernel.state_ k))).
Proof.
  intros Hk Hfi. exists (frame_info_planned k).
  split; [apply new_frame_info_Done; exact Hk|].
  apply plannable_spec in Hk as (_ & _ & _ & Hfit & _).
  rewrite planned_views_cu, planned_state, planned_algo_params, Hfi.
  cbn [GlobalState.cameras GlobalState.params_set CameraParameters_cu.cols
       CameraParameters_cu.rows CameraParameters_cu.viewSelectionSubsetNumber
       AlgorithmParameters.cols AlgorithmParameters.rows
       AlgorithmParameters.set_cols AlgorithmParameters.set_rows
       FrameInfo.width FrameInfo.height].
  split; [reflexivity|]. split; [reflexivity|].
  split; [reflexivity|]. split; [reflexivity|].
  split; [reflexivity|]. split; [reflexivity|].
  rewrite firstn_all. split.
  - rewrite length_app, length_drop. lia.
  - rewrite drop_app_length. reflexivity.
Qed.

(** X7. The planner leaves the configuration alone: the validity status, the
    parsed arguments, the device, the camera count and the frame info of the
    kernel, the iteration count, the patch size, the angle and depth bounds
    and [num_img_processed] of the algorithm parameters, and the solver's
    texture handles are what they were.  (The result memory is not among
    them: the planner resizes it.) *)
Theorem planner_keeps_configuration (k : Kernel.t) :
  plannable k = true ->
  exists k',
    new_frame_info k = Done tt k'
    /\ Kernel.valid_ k' = Kernel.valid_ k
    /\ Kernel.args_ k' = Kernel.args_ k
    /\ Kernel.device_ k' = Kernel.device_ k
    /\ Kernel.num_cameras_ k' = Kernel.num_cameras_ k
    /\ Kernel.frame_info_ k' = Kernel.frame_info_ k
    /\ GlobalState.textures (Kernel.state_ k') = GlobalState.textures (Kernel.state_ k)
    /\ (let ap := Kernel.algo_params_ k in
        let ap' := Kernel.algo_params_ k' in
        AlgorithmParameters.iterations ap' = AlgorithmParameters.iterations ap
        /\ AlgorithmParameters.box_hsize ap' = AlgorithmParameters.box_hsize ap
        /\ AlgorithmParameters.box_vsize ap' = AlgorithmParameters.box_vsize ap
        /\ AlgorithmParameters.min_angle ap' = AlgorithmParameters.min_angle ap
        /\ AlgorithmParameters.max_angle ap' = AlgorithmParameters.max_angle ap
        /\ AlgorithmParameters.depthMin ap' = AlgorithmParameters.depthMin ap
        /\ AlgorithmParameters.depthMax ap' = AlgorithmParameters.depthMax ap
        /\ AlgorithmParameters.num_img_processed ap'
           = AlgorithmParameters.num_img_processed ap).
Proof.
  intros Hk. exists (frame_info_planned k).
  split; [apply new_frame_info_Done; exact Hk|].
  split; [reflexivity|]. split; [reflexivity|]. split; [reflexivity|].
  split; [reflexivity|]. split; [reflexivity|].
  rewrite planned_state. split; [reflexivity|].
  cbv zeta. rewrite planned_algo_params.
  destruct (last _); repeat split; reflexivity.
Qed.

(** X8. When no view is selected, the planner stops on its assertion before
    it has written anything for the solver: the solver state, the algorithm
    parameters and the cameras of the rig are untouched, the rig's view
    subset is empty, and the only calls made are the device binding and the
    view selection. *)
Theorem planner_abort_leaves_solver_state (k : Kernel.t) :
  selected_views k = [] ->
  exists k',
    new_frame_info k = Abort k'
    /\ Kernel.state_ k' = Kernel.state_ k
    /\ Kernel.algo_params_ k' = Kernel.algo_params_ k
    /\ CameraParameters.cameras (Kernel.camera_params_ k')
       = CameraParameters.cameras (Kernel.camera_params_ k)
    /\ CameraParameters.viewSelectionSubset (Kernel.camera_params_ k') = []
    /\ Kernel.calls k' =
       Kernel.calls k ++
       [SetDevice (id (Kernel.device_ k));
        SelectViews (FrameInfo.width (Kernel.frame_info_ k))
          (FrameInfo.height (Kernel.frame_info_ k))].
Proof.
  intros Hsel. eexists. split; [apply new_frame_info_Abort; exact Hsel|].
  split; [reflexivity|]. split; [reflexivity|]. split; [reflexivity|].
  split; [exact Hsel|]. cbn. rewrite <- app_assoc. reflexivity.
Qed.

(** X9. When the per-camera loop stays inside both camera arrays and the
    solver's view array has room for the selected views, the planner returns
    exactly when at least one view is selected. *)
Theorem planner_returns_iff_views_selected (k : Kernel.t) :
  (Z.to_nat (Kernel.num_cameras_ k)
     <= length (CameraParameters.cameras (Kernel.camera_params_ k)))%nat ->
  (Z.to_nat (Kernel.num_cameras_ k)
     <= length (CameraParameters_cu.cameras (GlobalState.cameras (Kernel.state_ k))))%nat ->
  (length (selected_views k)
     <= length (CameraParameters_cu.viewSelectionSubset
                  (GlobalState.cameras (Kernel.state_ k))))%nat ->
  Z.of_nat (length (selected_views k)) < 2 ^ 31 ->
  (exists k', new_frame_info k = Done tt k') <-> selected_views k <> [].
Proof.
  intros Hcams Hcu Hfit Hsmall. split.
  - intros [k' Hk'] Hsel.
    rewrite (new_frame_info_Abort k Hsel) in Hk'. discriminate.
  - intros Hsel. exists (frame_info_planned k). apply new_frame_info_Done.
    unfold plannable.
    rewrite !andb_true_iff, !Nat.leb_le, Nat.ltb_lt, Z.ltb_lt.
    destruct (selected_views k); [congruence|]. simpl in *. repeat split; lia.
Qed.

End Planner.

(** ** Edge cases and call order of the executor *)
Section Executor.
Context `{ext : Collaborators}.

(** [execute] up to its per-frame loop. *)
Lemma execute_enters_loop (input_columns output_columns : list RowList.t)
    (info column0 : RowList.t) (k k1 : Kernel.t) :
  input_columns !! 1%nat = Some info ->
  input_columns !! 0%nat = Some column0 ->
  check_frame_info info (Kernel.log (SetDevice (id (Kernel.device_ k))) k) = Done tt k1 ->
  execute input_columns output_columns k =
  (locals ← for_i32 (MachInt.wrap_i32 (Z.of_nat (length (RowList.rows column0))))
              (execute_frame input_columns
                 (FrameInfo.width (Kernel.frame_info_ k1))
                 (FrameInfo.height (Kernel.frame_info_ k1))
                 (output_size_of (FrameInfo.width (Kernel.frame_info_ k1))
                    (FrameInfo.height (Kernel.frame_info_ k1)))
                 (new_block_buffer (Kernel.device_ k1)
                    (MachInt.mul_i32
                       (output_size_of (FrameInfo.width (Kernel.frame_info_ k1))
                          (FrameInfo.height (Kernel.frame_info_ k1)))
                       (MachInt.wrap_i32 (Z.of_nat (length (RowList.rows column0)))))
                    (MachInt.wrap_i32 (Z.of_nat (length (RowList.rows column0))))))
              (replicate (Z.to_nat (Kernel.num_cameras_ k1)) Mat_new, output_columns);
   mret locals.2) k1.
Proof.
  intros Hinfo Hcol0 Hcheck.
  unfold execute. rewrite (bind_run set_device). unfold set_device at 1.
  rewrite (bind_run (index _ _)).
  change 1 with (Z.of_nat 1) at 1. rewrite (index_lookup _ _ _ _ Hinfo).
  rewrite (bind_run (check_frame_info _)), Hcheck.
  rewrite (bind_run (gets _)). unfold gets at 1.
  rewrite (bind_run (gets _)). unfold gets at 1.
  rewrite (bind_run (index _ _)).
  change 0 with (Z.of_nat 0) at 1. rewrite (index_lookup _ _ _ _ Hcol0).
  rewrite (bind_run (gets _)). unfold gets at 1.
  rewrite (bind_run (gets _)). unfold gets at 1.
  reflexivity.
Qed.

(** X10. On a batch without rows, [execute] binds the device and checks the
    frame geometry (which may plan), then returns the output columns as they
    were given, whatever they are: no image is read, no texture bound, the
    solver is not run. *)
Theorem empty_batch_appends_nothing (input_columns output_columns : list RowList.t)
    (info column0 : RowList.t) (k k1 : Kernel.t) :
  input_columns !! 1%nat = Some info ->
  input_columns !! 0%nat = Some column0 ->
  RowList.rows column0 = [] ->
  check_frame_info info (Kernel.log (SetDevice (id (Kernel.device_ k))) k) = Done tt k1 ->
  execute input_columns output_columns k = Done output_columns k1.
Proof.
  intros Hinfo Hcol0 Hempty Hcheck.
  rewrite (execute_enters_loop _ _ _ _ _ _ Hinfo Hcol0 Hcheck), Hempty.
  reflexivity.
Qed.

(** X11. [execute] takes the frame info from the second input column before
    anything else is read: with fewer than two input columns the call is an
    out-of-range access, whatever the kernel and the output columns. *)
Theorem execute_needs_two_columns (input_columns output_columns : list RowList.t)
    (k : Kernel.t) :
  (length input_columns < 2)%nat ->
  execute input_columns output_columns k = Undefined.
Proof.
  intros Hlen. unfold execute.
  rewrite (bind_run set_device). unfold set_device at 1.
  rewrite (bind_run (index _ _)). unfold index at 1.
  change (Z.to_nat 1) with 1%nat. cbn [Z.ltb Z.compare].
  rewrite lookup_ge_None_2 by lia. reflexivity.
Qed.

Lemma solve_frame_set_calls (output_size : Z) (rs : list Row.t) (k : Kernel.t) :
  exists r k' released,
    solve_frame_set output_size rs k = Done r k'
    /\ Kernel.calls k' =
       Kernel.calls k ++ frame_cycle (length rs) (MachInt.to_size_t output_size) released.
Proof.
  unfold solve_frame_set, bind_textures, run_solver, copy_result,
    release_textures, modify_state, modify, gets.
  unfold mbind, M_bind, mret, M_ret. cbn.
  destruct (runcuda _ _) as [g ap]. cbn.
  eexists _, _, _. split; [reflexivity|].
  cbn. rewrite length_fmap, <- !app_assoc. reflexivity.
Qed.

Lemma solve_batch_calls (output_size : Z) (n : nat) (batch : list (list Row.t))
    (k : Kernel.t) :
  Forall (fun rs => length rs = n) batch ->
  exists rows k' released,
    solve_batch output_size batch k = Done rows k'
    /\ length released = length batch
    /\ Kernel.calls k' =
       Kernel.calls k
         ++ concat (frame_cycle n (MachInt.to_size_t output_size) <$> released).
Proof.
  revert k. induction batch as [|rs batch IH]; intros k Hall.
  - exists [], k, []. simpl. rewrite app_nil_r. auto.
  - apply Forall_cons in Hall as [Hrs Hall].
    destruct (solve_frame_set_calls output_size rs k) as (r & k1 & rel & Hr & Hcalls).
    destruct (IH k1 Hall) as (rows & k' & released & Hrows & Hlen & Hcalls').
    exists (r :: rows), k', (rel :: released).
    simpl solve_batch. unfold mbind, M_bind. rewrite Hr, Hrows.
    split; [reflexivity|]. split; [simpl; lia|].
    rewrite Hcalls', Hcalls, Hrs. simpl. rewrite <- app_assoc. reflexivity.
Qed.

Lemma frame_sets_cameras (input_columns : list RowList.t) (n count : nat)
    (batch : list (list Row.t)) :
  frame_sets input_columns n count = Some batch ->
  Forall (fun rs => length rs = n) batch.
Proof.
  unfold frame_sets. intros Hbatch. apply mapM_Some in Hbatch.
  apply Forall_forall. intros rs Hrs.
  apply list_elem_of_lookup in Hrs as [i Hi].
  destruct (Forall2_lookup_r _ _ _ _ _ Hbatch Hi) as (j & _ & Hj).
  eapply frame_set_length. exact Hj.
Qed.

(** X12. On a well-formed batch of K frame-sets the calls [execute] makes
    after the geometry check are K repetitions of the same cycle, one frame
    after the other: the images of all cameras are bound, the solver runs, the
    result of width * height * 16 bytes is copied, the textures are released.
    No frame is bound before the previous one is released. *)
Theorem frames_are_processed_in_cycles (input_columns rest : list RowList.t)
    (out0 info column0 : RowList.t) (k k1 : Kernel.t) (width height : Z) (n : nat)
    (batch : list (list Row.t)) :
  input_columns !! 1%nat = Some info ->
  input_columns !! 0%nat = Some column0 ->
  check_frame_info info (Kernel.log (SetDevice (id (Kernel.device_ k))) k) = Done tt k1 ->
  Kernel.frame_info_ k1 = FrameInfo.mk width height ->
  0 <= width -> 0 <= height -> width * height * 16 < 2 ^ 31 ->
  Kernel.num_cameras_ k1 = Z.of_nat n ->
  Z.of_nat n * 2 < 2 ^ 31 ->
  Z.of_nat (length (RowList.rows column0)) < 2 ^ 31 ->
  frame_sets input_columns n (length (RowList.rows column0)) = Some batch ->
  Forall (Forall (fun r => Row.size r = width * height * 3)) batch ->
  exists outs k2 released,
    execute input_columns (out0 :: rest) k = Done outs k2
    /\ length released = length (RowList.rows column0)
    /\ Kernel.calls k2 =
       Kernel.calls k1
         ++ concat (frame_cycle n (width * height * 16) <$> released).
Proof.
  intros Hinfo Hcol0 Hcheck Hfi Hw Hh Hsize Hn Hsmall Hcount Hbatch Hsizes.
  rewrite (execute_run _ _ _ _ _ _ _ _ _ _ _ Hinfo Hcol0 Hcheck Hfi Hn Hsmall Hcount Hbatch).
  rewrite checked_batch_matching.
  - destruct (solve_batch_calls (output_size_of width height) n batch k1)
      as (rows & k2 & released & -> & Hlen & Hcalls);
      [eapply frame_sets_cameras; exact Hbatch|].
    eexists _, k2, released. split; [reflexivity|].
    split; [rewrite Hlen; eapply frame_sets_length; exact Hbatch|].
    rewrite Hcalls, output_size_small by assumption.
    rewrite to_size_t_small by nia. reflexivity.
  - eapply Forall_impl; [exact Hsizes|]. intros rs Hrs.
    apply sizes_match_true. rewrite expected_input_size_small by nia. exact Hrs.
Qed.

Lemma frame_sets_ext (input_columns input_columns' : list RowList.t) (n count : nat) :
  (forall c : nat, input_columns' !! (2 * c)%nat = input_columns !! (2 * c)%nat) ->
  frame_sets input_columns' n count = frame_sets input_columns n count.
Proof.
  intros Heven. unfold frame_sets, frame_set.
  apply Forall2_mapM_ext, Forall_Forall2_diag, Forall_forall. intros i _.
  apply Forall2_mapM_ext, Forall_Forall2_diag, Forall_forall. intros c _.
  unfold camera_row. rewrite Heven. reflexivity.
Qed.

(** X13. [execute] reads the image columns (the even ones) and the frame
    info of the second column only: on a batch whose rows are all present,
    replacing the other columns, the per-frame metadata of the cameras after
    the first, changes nothing of the outcome. *)
Theorem other_metadata_columns_are_ignored (input_columns input_columns' rest : list RowList.t)
    (out0 info column0 : RowList.t) (k k1 : Kernel.t) (width height : Z) (n : nat)
    (batch : list (list Row.t)) :
  (forall c : nat, input_columns' !! (2 * c)%nat = input_columns !! (2 * c)%nat) ->
  input_columns' !! 1%nat = input_columns !! 1%nat ->
  input_columns !! 1%nat = Some info ->
  input_columns !! 0%nat = Some column0 ->
  check_frame_info info (Kernel.log (SetDevice (id (Kernel.device_ k))) k) = Done tt k1 ->
  Kernel.frame_info_ k1 = FrameInfo.mk width height ->
  Kernel.num_cameras_ k1 = Z.of_nat n ->
  Z.of_nat n * 2 < 2 ^ 31 ->
  Z.of_nat (length (RowList.rows column0)) < 2 ^ 31 ->
  frame_sets input_columns n (length (RowList.rows column0)) = Some batch ->
  execute input_columns' (out0 :: rest) k = execute input_columns (out0 :: rest) k.
Proof.
  intros Heven Hodd Hinfo Hcol0 Hcheck Hfi Hn Hsmall Hcount Hbatch.
  rewrite (execute_run input_columns _ _ _ _ _ _ _ _ _ _
             Hinfo Hcol0 Hcheck Hfi Hn Hsmall Hcount Hbatch).
  apply (execute_run input_columns' rest out0 info column0 k k1 width height n batch);
    try assumption.
  - rewrite Hodd. exact Hinfo.
  - pose proof (Heven 0%nat) as H0. simpl in H0. rewrite H0. exact Hcol0.
  - rewrite (frame_sets_ext input_columns input_columns') by exact Heven. exact Hbatch.
Qed.


(** *** What a returning [execute] has read *)

Lemma index_Done_inv {A : Type} (v : list A) (i : nat) (a : A) (k k' : Kernel.t) :
  index v (Z.of_nat i) k = Done a k' -> v !! i = Some a /\ k' = k.
Proof.
  unfold index. destruct (Z.ltb_spec (Z.of_nat i) 0) as [Hneg|_]; [lia|].
  rewrite Nat2Z.id. destruct (v !! i); [|discriminate].
  intros Hdone. injection Hdone as -> ->. auto.
Qed.

Lemma preprocess_camera_Done_inv (input_columns : list RowList.t) (width height : Z)
    (i c : nat) (images images' : list Image) (k k' : Kernel.t) :
  Z.of_nat c * 2 < 2 ^ 31 ->
  preprocess_camera input_columns width height (Z.of_nat i) (Z.of_nat c) images k
    = Done images' k' ->
  exists r, camera_row input_columns i c = Some r.
Proof.
  intros Hc. unfold preprocess_camera, MachInt.mul_i32.
  rewrite wrap_i32_small by lia.
  replace (Z.of_nat c * 2) with (Z.of_nat (2 * c)) by lia.
  rewrite (bind_run (index _ _)).
  destruct (index input_columns (Z.of_nat (2 * c)) k) as [column k1| |] eqn:Hcol;
    [|discriminate|discriminate].
  apply index_Done_inv in Hcol as [Hcol ->].
  rewrite (bind_run (index _ _)).
  destruct (index (RowList.rows column) (Z.of_nat i) k) as [r k1| |] eqn:Hrow;
    [|discriminate|discriminate].
  apply index_Done_inv in Hrow as [Hrow ->].
  intros _. exists r. unfold camera_row. rewrite Hcol. exact Hrow.
Qed.

Lemma preprocess_loop_Done_inv (input_columns : list RowList.t) (width height : Z)
    (i : nat) (count : nat) :
  forall (c0 : nat) (images images' : list Image) (k k' : Kernel.t),
    Z.of_nat (c0 + count) * 2 < 2 ^ 31 ->
    for_loop count (Z.of_nat c0)
      (preprocess_camera input_columns width height (Z.of_nat i)) images k
      = Done images' k' ->
    exists rs,
      Forall2 (fun c r => camera_row input_columns i c = Some r) (seq c0 count) rs.
Proof.
  induction count as [|count IH]; intros c0 images images' k k' Hsmall Hdone.
  - exists []. constructor.
  - simpl for_loop in Hdone. rewrite bind_run in Hdone.
    destruct (preprocess_camera input_columns width height (Z.of_nat i)
                (Z.of_nat c0) images k) as [images1 k1| |] eqn:Hbody;
      [|discriminate|discriminate].
    apply preprocess_camera_Done_inv in Hbody as [r Hr]; [|lia].
    replace (Z.of_nat c0 + 1) with (Z.of_nat (S c0)) in Hdone by lia.
    apply IH in Hdone as [rs Hrs]; [|lia].
    exists (r :: rs). simpl. constructor; assumption.
Qed.

Lemma execute_frame_Done_inv (input_columns : list RowList.t)
    (width height output_size : Z) (output_buffer : Block.t) (i n : nat)
    (locals locals' : list Image * list RowList.t) (k k' : Kernel.t) :
  Kernel.num_cameras_ k = Z.of_nat n ->
  length locals.1 = n ->
  Z.of_nat n * 2 < 2 ^ 31 ->
  execute_frame input_columns width height output_size output_buffer (Z.of_nat i) locals k
    = Done locals' k' ->
  exists rs,
    frame_set input_columns n i = Some rs
    /\ sizes_match width height rs = true
    /\ Kernel.num_cameras_ k' = Z.of_nat n
    /\ length locals'.1 = n.
Proof.
  intros Hn Hlocals Hsmall Hdone.
  unfold execute_frame in Hdone.
  rewrite (bind_run (gets _)) in Hdone. unfold gets at 1 in Hdone.
  rewrite Hn in Hdone. unfold for_i32 in Hdone. rewrite Nat2Z.id in Hdone.
  rewrite (bind_run (for_loop _ _ _ _)) in Hdone.
  destruct (for_loop n 0 (preprocess_camera input_columns width height (Z.of_nat i))
              locals.1 k) as [images1 k1| |] eqn:Hloop; [|discriminate|discriminate].
  destruct (preprocess_loop_Done_inv input_columns width height i n 0 _ _ _ _
              ltac:(simpl; lia) Hloop) as [rs Hrs].
  pose proof (Forall2_length _ _ _ Hrs) as Hlen. rewrite length_seq in Hlen.
  pose proof (preprocess_loop input_columns width height i k rs 0 [] locals.1) as Hfwd.
  rewrite <- Hlen in Hfwd. specialize (Hfwd Hrs eq_refl Hlocals ltac:(simpl; lia)).
  change (Z.of_nat 0) with 0 in Hfwd. simpl app in Hfwd.
  rewrite Hfwd in Hloop.
  destruct (sizes_match width height rs) eqn:Hsizes; [|discriminate].
  injection Hloop as <- <-.
  exists rs. split; [apply mapM_Some_2; exact Hrs|]. split; [exact Hsizes|].
  revert Hdone.
  unfold bind_textures, run_solver, copy_result, INSERT_ROW, release_textures,
    modify_state, modify, gets, index.
  unfold mbind, M_bind, mret, M_ret. cbn.
  destruct (runcuda _ _) as [g ap]. cbn.
  destruct (locals.2 !! _) as [column|]; [|discriminate].
  intros Hdone. injection Hdone as <- <-. cbn.
  split; [exact Hn|]. rewrite length_fmap. lia.
Qed.

Lemma frames_loop_Done_inv (input_columns : list RowList.t)
    (width height output_size : Z) (output_buffer : Block.t) (n count : nat) :
  forall (i0 : nat) (locals locals' : list Image * list RowList.t) (k k' : Kernel.t),
    Kernel.num_cameras_ k = Z.of_nat n ->
    length locals.1 = n ->
    Z.of_nat n * 2 < 2 ^ 31 ->
    for_loop count (Z.of_nat i0)
      (execute_frame input_columns width height output_size output_buffer) locals k
      = Done locals' k' ->
    exists batch,
      Forall2 (fun i rs => frame_set input_columns n i = Some rs) (seq i0 count) batch
      /\ Forall (fun rs => sizes_match width height rs = true) batch.
Proof.
  induction count as [|count IH]; intros i0 locals locals' k k' Hn Hlocals Hsmall Hdone.
  - exists []. split; constructor.
  - simpl for_loop in Hdone. rewrite bind_run in Hdone.
    destruct (execute_frame input_columns width height output_size output_buffer
                (Z.of_nat i0) locals k)
      as [locals1 k1| |] eqn:Hframe; [|discriminate|discriminate].
    destruct (execute_frame_Done_inv _ _ _ _ _ _ n _ _ _ _ Hn Hlocals Hsmall Hframe)
      as (rs & Hrs & Hsizes & Hn1 & Hlocals1).
    replace (Z.of_nat i0 + 1) with (Z.of_nat (S i0)) in Hdone by lia.
    destruct (IH (S i0) locals1 locals' k1 k' Hn1 Hlocals1 Hsmall Hdone)
      as (batch & Hbatch & Hall).
    exists (rs :: batch). split; simpl; constructor; assumption.
Qed.

(** X14. [execute] returns only on a well-formed batch: if it returns, then
    every camera's image column holds a row for every frame of the batch (the
    first column gives the number of frames), and every such row has byte size
    width * height * 3.  A missing row is an out-of-range read, a row of
    another size a failed assertion. *)
Theorem execute_returns_only_on_well_formed_batches
    (input_columns output_columns outs : list RowList.t) (info column0 : RowList.t)
    (k k1 k2 : Kernel.t) (width height : Z) (n : nat) :
  input_columns !! 1%nat = Some info ->
  input_columns !! 0%nat = Some column0 ->
  check_frame_info info (Kernel.log (SetDevice (id (Kernel.device_ k))) k) = Done tt k1 ->
  Kernel.frame_info_ k1 = FrameInfo.mk width height ->
  0 <= width -> 0 <= height -> width * height * 3 < 2 ^ 31 ->
  Kernel.num_cameras_ k1 = Z.of_nat n ->
  Z.of_nat n * 2 < 2 ^ 31 ->
  Z.of_nat (length (RowList.rows column0)) < 2 ^ 31 ->
  execute input_columns output_columns k = Done outs k2 ->
  exists batch,
    frame_sets input_columns n (length (RowList.rows column0)) = Some batch
    /\ Forall (Forall (fun r => Row.size r = width * height * 3)) batch.
Proof.
  intros Hinfo Hcol0 Hcheck Hfi Hw Hh Hsize Hn Hsmall Hcount Hdone.
  rewrite (execute_enters_loop _ _ _ _ _ _ Hinfo Hcol0 Hcheck) in Hdone.
  rewrite wrap_i32_small in Hdone by lia.
  unfold for_i32 in Hdone. rewrite Hn, !Nat2Z.id in Hdone.
  rewrite bind_run in Hdone.
  destruct (for_loop _ _ _ _ k1) as [locals' k'| |] eqn:Hloop;
    [|discriminate|discriminate].
  change 0 with (Z.of_nat 0) in Hloop.
  apply (frames_loop_Done_inv _ _ _ _ _ n) in Hloop as (batch & Hbatch & Hall);
    [|exact Hn|apply length_replicate|exact Hsmall].
  exists batch. split; [apply mapM_Some_2; exact Hbatch|].
  eapply Forall_impl; [exact Hall|]. intros rs Hrs.
  apply sizes_match_true in Hrs. rewrite Hfi in Hrs. simpl in Hrs.
  rewrite expected_input_size_small in Hrs by assumption. exact Hrs.
Qed.


(** *** The device is bound first *)

Lemma preserves_modify_prefix (l : list gpu_call) (upd : Kernel.t -> Kernel.t) :
  (forall k, Kernel.calls k `prefix_of` Kernel.calls (upd k)) ->
  preserves (fun k => l `prefix_of` Kernel.calls k) (modify upd).
Proof.
  intros Hupd. apply preserves_modify. intros k Hk.
  etransitivity; [exact Hk | apply Hupd].
Qed.

Ltac grows_calls :=
  let k := fresh "k" in
  intros k; cbn; first [reflexivity | apply prefix_app_r; reflexivity].

Ltac keeps_calls :=
  repeat (cbv beta;
    lazymatch goal with
    | |- preserves _ (mbind _ _) => apply preserves_bind; [|intros]
    | |- preserves _ (mret _) => apply preserves_ret
    | |- preserves _ (gets _) => apply preserves_gets
    | |- preserves _ (assert _) => apply preserves_assert
    | |- preserves _ (index _ _) => apply preserves_index
    | |- preserves _ (for_loop _ _ _ _) => apply preserves_for_loop; intros
    | |- preserves _ (modify _) => apply preserves_modify_prefix; grows_calls
    end).

Lemma set_device_keeps_calls (l : list gpu_call) :
  preserves (fun k => l `prefix_of` Kernel.calls k) set_device.
Proof.
  intros k Hk. unfold set_device. cbn. apply prefix_app_r. exact Hk.
Qed.

Lemma plan_camera_keeps_calls (l : list gpu_call) (i : Z) :
  preserves (fun k => l `prefix_of` Kernel.calls k) (plan_camera i).
Proof.
  unfold plan_camera, assign_camera, assign_camera_cu, modify_algo_params,
    modify_camera_params, modify_state_cameras, modify_state.
  keeps_calls.
Qed.

Lemma copy_view_keeps_calls (l : list gpu_call) (i : Z) :
  preserves (fun k => l `prefix_of` Kernel.calls k) (copy_view i).
Proof.
  unfold copy_view, modify_state_cameras, modify_state.
  keeps_calls.
Qed.

Lemma new_frame_info_keeps_calls (l : list gpu_call) :
  preserves (fun k => l `prefix_of` Kernel.calls k) new_frame_info.
Proof.
  unfold new_frame_info, for_i32, modify_lines, modify_algo_params,
    modify_state_cameras, modify_state.
  repeat (cbv beta;
    lazymatch goal with
    | |- preserves _ set_device => apply set_device_keeps_calls
    | |- preserves _ (plan_camera _) => apply plan_camera_keeps_calls
    | |- preserves _ (copy_view _) => apply copy_view_keeps_calls
    | |- _ => progress keeps_calls
    end).
Qed.

Lemma check_frame_info_keeps_calls (l : list gpu_call) (frame_info : RowList.t) :
  preserves (fun k => l `prefix_of` Kernel.calls k) (check_frame_info frame_info).
Proof.
  unfold check_frame_info.
  apply preserves_bind; [apply preserves_gets|]. intros planned.
  destruct (_ && _); [apply preserves_ret|].
  apply preserves_bind; [|intros; apply new_frame_info_keeps_calls].
  apply preserves_modify. intros k Hk. exact Hk.
Qed.

Lemma execute_frame_keeps_calls (l : list gpu_call) (input_columns : list RowList.t)
    (width height output_size : Z) (output_buffer : Block.t) (i : Z)
    (locals : list Image * list RowList.t) :
  preserves (fun k => l `prefix_of` Kernel.calls k)
    (execute_frame input_columns width height output_size output_buffer i locals).
Proof.
  unfold execute_frame.
  apply preserves_bind; [apply preserves_gets|]. intros num_cameras.
  apply preserves_bind.
  { unfold for_i32. apply preserves_for_loop. intros.
    unfold preprocess_camera. keeps_calls. }
  intros images k Hk.
  unfold bind_textures, run_solver, copy_result, INSERT_ROW, release_textures,
    modify_state, modify, gets, index.
  unfold mbind, M_bind, mret, M_ret. cbn.
  destruct (runcuda _ _) as [g ap]. cbn.
  destruct (locals.2 !! _) as [column|]; cbn; [|exact Logic.I].
  do 4 apply prefix_app_r. exact Hk.
Qed.

(** A first step that establishes [I'], followed by steps that keep it. *)
Lemma establishes_then_preserves {A B : Type} (I' : Kernel.t -> Prop)
    (m : M A) (f : A -> M B) (k : Kernel.t) :
  match m k with
  | Done _ k' => I' k'
  | Abort k' => I' k'
  | Undefined => True
  end ->
  (forall a, preserves I' (f a)) ->
  match (m ≫= f) k with
  | Done _ k' => I' k'
  | Abort k' => I' k'
  | Undefined => True
  end.
Proof.
  intros Hm Hf. rewrite bind_run.
  destruct (m k) as [a k1|k1|]; try exact Hm.
  apply Hf. exact Hm.
Qed.

(** X15. Both entry points the host calls after construction bind the
    kernel's device before any other call: on every exit path of [execute]
    and of [new_frame_info], the calls made start with the binding of
    [device_.id]. *)
Theorem entry_points_bind_the_device_first (k k' : Kernel.t) :
  (forall input_columns output_columns,
     exit_state (execute input_columns output_columns k) = Some k' ->
     (Kernel.calls k ++ [SetDevice (id (Kernel.device_ k))]) `prefix_of` Kernel.calls k')
  /\ (exit_state (new_frame_info k) = Some k' ->
      (Kernel.calls k ++ [SetDevice (id (Kernel.device_ k))]) `prefix_of` Kernel.calls k').
Proof.
  split.
  - intros input_columns output_columns Hexit.
    assert (Hrun :
      match execute input_columns output_columns k with
      | Done _ k1 =>
          (Kernel.calls k ++ [SetDevice (id (Kernel.device_ k))]) `prefix_of` Kernel.calls k1
      | Abort k1 =>
          (Kernel.calls k ++ [SetDevice (id (Kernel.device_ k))]) `prefix_of` Kernel.calls k1
      | Undefined => True
      end).
    { unfold execute. apply establishes_then_preserves; [unfold set_device; cbn; reflexivity|].
      intros _. unfold for_i32.
      repeat (cbv beta;
        lazymatch goal with
        | |- preserves _ (check_frame_info _) => apply check_frame_info_keeps_calls
        | |- preserves _ (execute_frame _ _ _ _ _ _ _) => apply execute_frame_keeps_calls
        | |- _ => progress keeps_calls
        end). }
    destruct (execute input_columns output_columns k) as [outs k1|k1|];
      simpl in Hexit; try discriminate; injection Hexit as <-; exact Hrun.
  - intros Hexit.
    assert (Hrun :
      match new_frame_info k with
      | Done _ k1 =>
          (Kernel.calls k ++ [SetDevice (id (Kernel.device_ k))]) `prefix_of` Kernel.calls k1
      | Abort k1 =>
          (Kernel.calls k ++ [SetDevice (id (Kernel.device_ k))]) `prefix_of` Kernel.calls k1
      | Undefined => True
      end).
    { unfold new_frame_info.
      rewrite (bind_run (gets _)). unfold gets at 1.
      rewrite (bind_run (gets _)). unfold gets at 1.
      apply establishes_then_preserves; [unfold set_device; cbn; reflexivity|].
      intros _. unfold for_i32, modify_lines, modify_algo_params,
        modify_state_cameras, modify_state.
      repeat (cbv beta;
        lazymatch goal with
        | |- preserves _ (plan_camera _) => apply plan_camera_keeps_calls
        | |- preserves _ (copy_view _) => apply copy_view_keeps_calls
        | |- _ => progress keeps_calls
        end). }
    destruct (new_frame_info k) as [[] k1|k1|];
      simpl in Hexit; try discriminate; injection Hexit as <-; exact Hrun.
Qed.

End Executor.

(** ** The kernel on concrete inputs

    Runs of the kernel against the mock collaborators. *)
Import Mock.

(** C1 (the code at a failing input). A configuration declaring 3 cameras
    with 5 input columns passes the check of line 43: the kernel is
    constructed as valid, [validate] reports success with an empty message,
    and the camera rig is built. *)
Theorem mismatch_of_3_cameras_5_columns_undetected :
  let k := constructed
             (GipumaKernel_new
                (config 3 ["frame0"; "info0"; "frame1"; "info1"; "frame2"])) in
  GipumaKernel_new (config 3 ["frame0"; "info0"; "frame1"; "info1"; "frame2"])
    = Done tt k
  /\ columns_check 3 5 = false
  /\ validate k = Done (Result.mk true "") k
  /\ In BuildRig (Kernel.calls k)
  /\ length (CameraParameters.cameras (Kernel.camera_params_ k)) = 3%nat.
Proof.
  cbv zeta. split; [vm_compute; reflexivity|].
  split; [vm_compute; reflexivity|].
  split; [vm_compute; reflexivity|].
  split; [vm_compute; tauto|].
  vm_compute. reflexivity.
Qed.

(** C2 (counterexample). With two cameras of baselines 0 and 10, the bounds
    the planner leaves are those of the second camera; they are not the bounds
    of the first camera's baseline. *)
Lemma disparity_bounds_not_of_each_camera :
  exists k' c,
    new_frame_info facing_4x3 = Done tt k'
    /\ CameraParameters.cameras (Kernel.camera_params_ facing_4x3) !! 0%nat = Some c
    /\ AlgorithmParameters.min_disparity (Kernel.algo_params_ k')
       <> disparityDepthConversion
            (CameraParameters.f (Kernel.camera_params_ facing_4x3))
            (Camera.baseline c)
            (AlgorithmParameters.depthMax (Kernel.algo_params_ facing_4x3)).
Proof.
  exists (constructed (new_frame_info facing_4x3)).
  eexists. split; [vm_compute; reflexivity|].
  split; [vm_compute; reflexivity|].
  vm_compute. discriminate.
Qed.

Lemma planner_derives_disparity_bounds_witness :
  exists k',
    new_frame_info scenario = Done tt k'
    /\ AlgorithmParameters.min_disparity (Kernel.algo_params_ k') = F32.of_Z 70
    /\ AlgorithmParameters.max_disparity (Kernel.algo_params_ k') = F32.of_Z 7000.
Proof.
  destruct (planner_derives_disparity_bounds scenario (last_camera scenario))
    as (k' & Hk' & _ & _ & Hscenario).
  - vm_compute. reflexivity.
  - vm_compute. reflexivity.
  - vm_compute. reflexivity.
  - exists k'. split; [exact Hk'|].
    apply Hscenario; vm_compute; reflexivity.
Defined.

Lemma disparity_bounds_of_last_camera_only_witness :
  exists k1' k2',
    new_frame_info facing_4x3 = Done tt k1'
    /\ new_frame_info (Kernel.set_frame_info_ (FrameInfo.mk 4 3) scenario) = Done tt k2'
    /\ AlgorithmParameters.min_disparity (Kernel.algo_params_ k2')
       = AlgorithmParameters.min_disparity (Kernel.algo_params_ k1')
    /\ AlgorithmParameters.max_disparity (Kernel.algo_params_ k2')
       = AlgorithmParameters.max_disparity (Kernel.algo_params_ k1').
Proof.
  destruct (disparity_bounds_of_last_camera_only facing_4x3
              (Kernel.set_frame_info_ (FrameInfo.mk 4 3) scenario)
              (last_camera facing_4x3) (last_camera scenario))
    as (k1' & k2' & Hk1 & Hk2 & _ & _ & Hmin & Hmax);
    try (vm_compute; reflexivity).
  - vm_compute. discriminate.
  - exists k1', k2'. repeat split; assumption.
Defined.

Lemma planner_resizes_results_buffer_witness :
  exists k',
    new_frame_info facing_4x3 = Done tt k'
    /\ LineState.elements (GlobalState.lines (Kernel.state_ k')) = 4 * 3
    /\ LineState.n (GlobalState.lines (Kernel.state_ k')) = 4 * 3
    /\ LineState.s (GlobalState.lines (Kernel.state_ k')) = 4
    /\ LineState.l (GlobalState.lines (Kernel.state_ k')) = 4
    /\ last (Kernel.calls k') = Some (ResizeLines (4 * 3)).
Proof.
  apply (planner_resizes_results_buffer facing_4x3 4 3).
  - vm_compute. reflexivity.
  - reflexivity.
  - lia.
  - lia.
  - lia.
Defined.

Lemma planner_selects_valid_views_witness :
  exists k',
    new_frame_info facing_4x3 = Done tt k'
    /\ CameraParameters.viewSelectionSubset (Kernel.camera_params_ k') <> []
    /\ Forall (fun i => 0 <= i < Kernel.num_cameras_ k')
         (CameraParameters.viewSelectionSubset (Kernel.camera_params_ k')).
Proof.
  destruct (planner_selects_valid_views facing_4x3) as (k' & Hk' & Hne & Hrange & _).
  - vm_compute. reflexivity.
  - exists k'. repeat split; assumption.
Defined.






Lemma texture_releases_match_bindings_witness :
  bindings (Kernel.calls (constructed (execute batch_columns [no_rows] two_cameras)))
    - bindings (Kernel.calls two_cameras)
  = releases (Kernel.calls (constructed (execute batch_columns [no_rows] two_cameras)))
    - releases (Kernel.calls two_cameras)
  /\ bindings (Kernel.calls (constructed (execute short_batch_columns [no_rows] two_cameras)))
     - bindings (Kernel.calls two_cameras)
   = releases (Kernel.calls (constructed (execute short_batch_columns [no_rows] two_cameras)))
     - releases (Kernel.calls two_cameras).
Proof.
  split.
  - apply (texture_releases_match_bindings batch_columns [no_rows]).
    vm_compute. reflexivity.
  - apply (texture_releases_match_bindings short_batch_columns [no_rows]).
    vm_compute. reflexivity.
Defined.

Lemma size_mismatch_is_fatal_witness :
  exists k', execute short_batch_columns [no_rows] two_cameras = Abort k'.
Proof.
  destruct (size_mismatch_is_fatal short_batch_columns [] no_rows (info_column 4 3 2)
              (RowList.mk _ [image_row [1; 2] 36; image_row [3; 4] 35])
              two_cameras checked_for_batch 4 3 2 short_batch_frame_sets)
    as [_ Habort].
  - reflexivity.
  - reflexivity.
  - vm_compute. reflexivity.
  - vm_compute. reflexivity.
  - lia.
  - lia.
  - lia.
  - vm_compute. reflexivity.
  - lia.
  - simpl. lia.
  - vm_compute. reflexivity.
  - apply Habort.
    apply Exists_cons_tl, Exists_cons_hd, Exists_cons_hd. simpl. lia.
Defined.

(** *** Construction, planning and execution on the mock inputs *)

Lemma read_P_row_major_witness :
  (exists P,
     read_P identity_P two_cameras = Done P two_cameras
     /\ concat P = take 12 identity_P)
  /\ read_P (take 3 identity_P) two_cameras = Undefined.
Proof.
  split.
  - destruct (proj1 (read_P_row_major identity_P two_cameras))
      as (P & HP & _ & _ & Hflat & _).
    + simpl. lia.
    + exists P. split; assumption.
  - apply (proj2 (read_P_row_major (take 3 identity_P) two_cameras)).
    simpl. lia.
Defined.

Lemma well_formed_configuration_is_constructed_witness :
  exists k,
    GipumaKernel_new (config 2 ["frame0"; "info0"; "frame1"; "info1"]) = Done tt k
    /\ Kernel.valid_ k = Result.mk true ""
    /\ Kernel.num_cameras_ k = 2
    /\ Kernel.calls k = [SetDevice 0; BuildRig].
Proof.
  destruct (well_formed_configuration_is_constructed
              (config 2 ["frame0"; "info0"; "frame1"; "info1"])
              (Build_DeviceHandle 0) []
              (GipumaArgs.mk [identity_P; identity_P]
                 (F32.of_Z 0) (F32.of_Z 0) (F32.of_Z 1) (F32.of_Z 100) 8 5 5))
    as (k & Hk & Hvalid & Hnum & _ & _ & _ & _ & _ & Hcalls).
  - reflexivity.
  - reflexivity.
  - reflexivity.
  - simpl. lia.
  - repeat constructor; simpl; lia.
  - exists k. split; [exact Hk|]. split; [exact Hvalid|]. split; [exact Hnum|]. exact Hcalls.
Defined.

Lemma constructor_rejects_exactly_witness :
  exists k,
    GipumaKernel_new (config 2 ["frame0"; "info0"; "frame1"]) = Done tt k
    /\ Result.success (Kernel.valid_ k) <> false.
Proof.
  destruct (constructor_rejects_exactly (config 2 ["frame0"; "info0"; "frame1"])
              (Build_DeviceHandle 0) []
              (GipumaArgs.mk [identity_P; identity_P]
                 (F32.of_Z 0) (F32.of_Z 0) (F32.of_Z 1) (F32.of_Z 100) 8 5 5))
    as (k & Hk & Hiff).
  - reflexivity.
  - reflexivity.
  - repeat constructor; simpl; lia.
  - exists k. split; [exact Hk|]. intros Hinvalid.
    apply Hiff in Hinvalid as [[Hzero _]|[_ Hnone]]; [|discriminate].
    vm_compute in Hzero. discriminate.
Defined.

Lemma construction_never_aborts_witness :
  @GipumaKernel_new memory short_matrix_collaborators (config 1 ["frame0"; "info0"])
  = Undefined.
Proof.
  apply (proj2 (@construction_never_aborts memory short_matrix_collaborators
                  (config 1 ["frame0"; "info0"]))
           (Build_DeviceHandle 0) []
           (GipumaArgs.mk [F32.of_Z <$> [1; 0; 0]]
              (F32.of_Z 0) (F32.of_Z 0) (F32.of_Z 1) (F32.of_Z 100) 8 5 5)).
  - reflexivity.
  - reflexivity.
  - vm_compute. reflexivity.
  - apply Exists_cons_hd. simpl. lia.
Defined.


Lemma planner_propagates_depth_bounds_witness :
  exists k',
    new_frame_info facing_4x3 = Done tt k'
    /\ Camera.depthMax <$> CameraParameters.cameras (Kernel.camera_params_ k') !! 1%nat
       = Some (F32.of_Z 100).
Proof.
  destruct (planner_propagates_depth_bounds facing_4x3) as (k' & Hk' & _ & Hcams & _).
  - vm_compute. reflexivity.
  - exists k'. split; [exact Hk'|]. rewrite Hcams. vm_compute. reflexivity.
Defined.

Lemma planner_records_geometry_witness :
  exists k',
    new_frame_info facing_4x3 = Done tt k'
    /\ CameraParameters_cu.cols (GlobalState.cameras (Kernel.state_ k')) = 4
    /\ CameraParameters_cu.rows (GlobalState.cameras (Kernel.state_ k')) = 3
    /\ AlgorithmParameters.cols (Kernel.algo_params_ k') = 4
    /\ AlgorithmParameters.rows (Kernel.algo_params_ k') = 3.
Proof.
  destruct (planner_records_geometry facing_4x3 4 3)
    as (k' & Hk' & Hcols & Hrows & Hacols & Harows & _).
  - vm_compute. reflexivity.
  - reflexivity.
  - exists k'. repeat split; assumption.
Defined.

Lemma planner_keeps_configuration_witness :
  exists k',
    new_frame_info facing_4x3 = Done tt k'
    /\ Kernel.valid_ k' = Kernel.valid_ facing_4x3
    /\ Kernel.num_cameras_ k' = Kernel.num_cameras_ facing_4x3.
Proof.
  destruct (planner_keeps_configuration facing_4x3)
    as (k' & Hk' & Hvalid & _ & _ & Hnum & _).
  - vm_compute. reflexivity.
  - exists k'. split; [exact Hk'|]. split; [exact Hvalid|]. exact Hnum.
Defined.

Lemma planner_abort_leaves_solver_state_witness :
  exists k',
    new_frame_info lone_4x3 = Abort k'
    /\ Kernel.state_ k' = Kernel.state_ lone_4x3
    /\ Kernel.algo_params_ k' = Kernel.algo_params_ lone_4x3.
Proof.
  destruct (planner_abort_leaves_solver_state lone_4x3)
    as (k' & Hk' & Hstate & Hparams & _).
  - vm_compute. reflexivity.
  - exists k'. split; [exact Hk'|]. split; [exact Hstate|]. exact Hparams.
Defined.

Lemma planner_returns_iff_views_selected_witness :
  (exists k', new_frame_info facing_4x3 = Done tt k') <-> selected_views facing_4x3 <> [].
Proof.
  apply (planner_returns_iff_views_selected facing_4x3).
  - vm_compute. lia.
  - vm_compute. lia.
  - vm_compute. lia.
  - vm_compute. reflexivity.
Defined.

Lemma empty_batch_appends_nothing_witness :
  execute empty_batch_columns [] two_cameras = Done [] checked_for_batch.
Proof.
  apply (empty_batch_appends_nothing empty_batch_columns [] (info_column 4 3 2) no_rows).
  - reflexivity.
  - reflexivity.
  - reflexivity.
  - vm_compute. reflexivity.
Defined.

Lemma execute_needs_two_columns_witness :
  execute [no_rows] [no_rows] two_cameras = Undefined.
Proof.
  apply (execute_needs_two_columns [no_rows] [no_rows] two_cameras).
  simpl. lia.
Defined.

Lemma frames_are_processed_in_cycles_witness :
  exists outs k2 released,
    execute batch_columns [no_rows] two_cameras = Done outs k2
    /\ length released = 2%nat
    /\ Kernel.calls k2 =
       Kernel.calls checked_for_batch ++ concat (frame_cycle 2 (4 * 3 * 16) <$> released).
Proof.
  apply (frames_are_processed_in_cycles batch_columns [] no_rows (info_column 4 3 2)
           (RowList.mk _ [image_row [1; 2] 36; image_row [3; 4] 36])
           two_cameras checked_for_batch 4 3 2 batch_frame_sets).
  - reflexivity.
  - reflexivity.
  - vm_compute. reflexivity.
  - vm_compute. reflexivity.
  - lia.
  - lia.
  - lia.
  - vm_compute. reflexivity.
  - lia.
  - simpl. lia.
  - vm_compute. reflexivity.
  - vm_compute. repeat constructor.
Defined.

Lemma other_metadata_columns_are_ignored_witness :
  execute batch_columns_without_metadata [no_rows] two_cameras
  = execute batch_columns [no_rows] two_cameras.
Proof.
  apply (other_metadata_columns_are_ignored batch_columns batch_columns_without_metadata
           [] no_rows (info_column 4 3 2)
           (RowList.mk _ [image_row [1; 2] 36; image_row [3; 4] 36])
           two_cameras checked_for_batch 4 3 2 batch_frame_sets).
  - intros [|[|c]]; [reflexivity|reflexivity|].
    replace (2 * S (S c))%nat with (S (S (S (S (2 * c))))) by lia. reflexivity.
  - reflexivity.
  - reflexivity.
  - reflexivity.
  - vm_compute. reflexivity.
  - vm_compute. reflexivity.
  - vm_compute. reflexivity.
  - lia.
  - simpl. lia.
  - vm_compute. reflexivity.
Defined.

Lemma execute_returns_only_on_well_formed_batches_witness :
  exists batch,
    frame_sets batch_columns 2 2 = Some batch
    /\ Forall (Forall (fun r => Row.size r = 4 * 3 * 3)) batch.
Proof.
  apply (execute_returns_only_on_well_formed_batches batch_columns [no_rows]
           [RowList.mk _
              [Row.mk memory
                 (Pointer.mk memory (Block.mk (Build_DeviceHandle 0) 384 2) 0
                    [1; 2; 5; 6]) 192;
               Row.mk memory
                 (Pointer.mk memory (Block.mk (Build_DeviceHandle 0) 384 2) 192
                    [3; 4; 7; 8]) 192]]
           (info_column 4 3 2)
           (RowList.mk _ [image_row [1; 2] 36; image_row [3; 4] 36])
           two_cameras checked_for_batch
           (constructed (execute batch_columns [no_rows] two_cameras)) 4 3 2).
  - reflexivity.
  - reflexivity.
  - vm_compute. reflexivity.
  - vm_compute. reflexivity.
  - lia.
  - lia.
  - lia.
  - vm_compute. reflexivity.
  - lia.
  - simpl. lia.
  - vm_compute. reflexivity.
Defined.

Lemma entry_points_bind_the_device_first_witness :
  (Kernel.calls two_cameras ++ [SetDevice 0])
    `prefix_of` Kernel.calls (constructed (execute batch_columns [no_rows] two_cameras))
  /\ (Kernel.calls lone_4x3 ++ [SetDevice 0])
       `prefix_of` Kernel.calls (constructed (new_frame_info lone_4x3)).
Proof.
  split.
  - apply (proj1 (entry_points_bind_the_device_first two_cameras
                    (constructed (execute batch_columns [no_rows] two_cameras)))
             batch_columns [no_rows]).
    vm_compute. reflexivity.
  - apply (proj2 (entry_points_bind_the_device_first lone_4x3
                    (constructed (new_frame_info lone_4x3)))).
    vm_compute. reflexivity.
Defined.

(** X17. The output block and the row offsets are [i32] products: once they
    wrap, rows leave the block or share memory.  On a batch of five
    8192 x 8192 frame-sets the block [execute] asks for has 2^30 bytes, the
    size of one row; the five rows are at offsets 0, 2^30, -2^31, -2^30 and
    0, so the second, third and fourth lie outside the block, and the first
    and the fifth are the same memory although they stand for different
    results. *)
Theorem rows_alias_when_offsets_wrap :
  exists rows k2 first fifth,
    execute large_batch_columns [no_rows] two_cameras = Done [RowList.mk _ rows] k2
    /\ (Pointer.block ∘ Row.buffer <$> rows)
       = replicate 5 (Block.mk (Build_DeviceHandle 0) (2 ^ 30) 5)
    /\ (Row.size <$> rows) = replicate 5 (2 ^ 30)
    /\ (Pointer.offset ∘ Row.buffer <$> rows) = [0; 2 ^ 30; - 2 ^ 31; - 2 ^ 30; 0]
    /\ (inside_block <$> rows) = [true; false; false; false; true]
    /\ rows !! 0%nat = Some first
    /\ rows !! 4%nat = Some fifth
    /\ rows_overlap first fifth = true
    /\ Pointer.contents (Row.buffer first) = [1; 11]
    /\ Pointer.contents (Row.buffer fifth) = [5; 15].
Proof.
  pose (outcome := execute large_batch_columns [no_rows] two_cameras).
  pose (rows := match outcome with
                | Done [column] _ => RowList.rows column
                | _ => []
                end).
  exists rows, (constructed outcome).
  exists (default (image_row [] 0) (rows !! 0%nat)).
  exists (default (image_row [] 0) (rows !! 4%nat)).
  split; [vm_compute; reflexivity|].
  split; [vm_compute; reflexivity|].
  split; [vm_compute; reflexivity|].
  split; [vm_compute; reflexivity|].
  split; [vm_compute; reflexivity|].
  split; [vm_compute; reflexivity|].
  split; [vm_compute; reflexivity|].
  split; [vm_compute; reflexivity|].
  split; vm_compute; reflexivity.
Qed.
